(** * randrctl: the facade, the hook pipeline and the factory of [randrctl/ctl.py]

    A shallow embedding of [randrctl/ctl.py].  Python objects become records,
    dictionaries become [gmap]s, and every method becomes a computation in a
    small trace-and-exception monad [M]: the trace records the calls the
    method makes to the outside world (logger, [subprocess.Popen], the
    display controller), the outcome is either a raised exception or a
    returned value. *)

From Stdlib Require Import ZArith Ascii String List.
From stdpp Require Import base option list gmap strings fin_maps.

Open Scope string_scope.
Open Scope list_scope.

(** ** Python values *)

(** Python [str].  Characters are the code points below 256; [str.isspace]
    holds on exactly these of them. *)
Definition py_isspace (a : ascii) : bool :=
  let n := nat_of_ascii a in
  (((9 <=? n) && (n <=? 13)) || ((28 <=? n) && (n <=? 32))
   || (n =? 133) || (n =? 160))%nat.

Fixpoint lstrip (s : string) : string :=
  match s with
  | EmptyString => EmptyString
  | String a t => if py_isspace a then lstrip t else s
  end.

Fixpoint rstrip (s : string) : string :=
  match s with
  | EmptyString => EmptyString
  | String a t =>
      match rstrip t with
      | EmptyString => if py_isspace a then EmptyString else String a EmptyString
      | t' => String a t'
      end
  end.

(** [s.strip()] *)
Definition strip (s : string) : string := rstrip (lstrip s).

(** [len(s)] *)
Definition len (s : string) : nat := String.length s.

(** Values produced by [yaml.load], as far as the model goes: [None],
    booleans, integers, strings, and mappings with string keys. *)
#[warnings="-register-all"]
Inductive yaml : Type :=
| YNull
| YBool (b : bool)
| YInt (z : Z)
| YStr (s : string)
| YMap (m : gmap string yaml).

(** A Python value that is [None] or a [str], as a [yaml] value. *)
Definition of_opt_str (o : option string) : yaml :=
  match o with
  | None => YNull
  | Some s => YStr s
  end.

(** Exceptions (instances of [Exception]): the class and [str(e)]. *)
Record exn : Type := Exn { exn_class : string; exn_msg : string }.

(** ** The model classes

    [randrctl/model.py] is not part of the sources at hand; the records
    below carry the fields the specification gives them. *)

(** Modelled from the spec: the per-output matching hints of
    [randrctl.model]; [edid], [supports] and [prefers], each of which may be
    absent. *)
Module Rule.
Record t : Type := Make {
  edid : option string;
  supports : option (gset string);
  prefers : option string
}.
End Rule.

(** Modelled from the spec: the output entries of a profile in
    [randrctl.model]; connector name, mode, position, rotation, refresh
    rate and primary flag. *)
Module Output.
Record t : Type := Make {
  name : string;
  mode : string;
  pos : string;
  rotate : string;
  rate : option Z;
  primary : bool
}.
End Output.

(** Modelled from the spec: the [Profile] class of [randrctl.model]. *)
Module Profile.
Record t : Type := Make {
  name : string;
  outputs : list Output.t;
  rules : option (gmap string Rule.t);
  priority : Z
}.
End Profile.

(** Modelled from the spec: the live state of a connector, as reported by
    [Xrandr.get_connected_outputs]. *)
Module XrandrConnection.
Record t : Type := Make {
  name : string;
  edid : string;
  supported_modes : gset string;
  preferred_mode : string;
  connected : bool
}.
End XrandrConnection.

(** ** The outside world as a trace *)

Inductive level : Type := DEBUG | INFO | WARNING | ERROR.

Inductive logarg : Type :=
| ArgStr (s : string)
| ArgList (l : list string).

(** What a method does to the outside world: a logger call, a call of
    [subprocess.Popen(cmd, env=env, shell=True)], a call of the display
    controller's own [Xrandr.apply], or a profile handed to the profile
    manager to be written or printed. *)
Inductive event : Type :=
| EvLog (lvl : level) (fmt : string) (args : list logarg)
| EvPopen (cmd : string) (env : gmap string string)
| EvXrandrApply (p : Profile.t)
| EvWrite (p : Profile.t) (yaml_flow_style : bool)
| EvPrint (p : Profile.t) (yaml_flow_style : bool).

(** ** The monad: a trace of events and a raised exception or a value *)

Definition M (A : Type) : Type := (list event * (exn + A))%type.

Definition ret {A} (a : A) : M A := ([], inr a).

Definition bind {A B} (m : M A) (f : A -> M B) : M B :=
  match m with
  | (t, inl e) => (t, inl e)
  | (t, inr a) => let (t', r) := f a in (t ++ t', r)
  end.

Definition raise {A} (e : exn) : M A := ([], inl e).

Definition emit (ev : event) : M unit := ([ev], inr tt).

(** [try: body / except C as e: handler(e)] where [catches] tells the
    instances of [C]. *)
Definition try_except {A} (body : M A) (catches : exn -> bool)
    (handler : exn -> M A) : M A :=
  match body with
  | (t, inl e) =>
      if catches e then let (t', r) := handler e in (t ++ t', r)
      else (t, inl e)
  | (t, inr a) => (t, inr a)
  end.

#[global] Instance M_ret : MRet M := @ret.
#[global] Instance M_bind : MBind M := fun A B f m => bind m f.

(** Every exception of the model is an [Exception]. *)
Definition Exception (e : exn) : bool := true.

Definition trace {A} (m : M A) : list event := fst m.
Definition outcome {A} (m : M A) : exn + A := snd m.

(** [str(e)] *)
Definition str (e : exn) : string := exn_msg e.

(** The name of the Python type of a value, as error messages print it. *)
Definition type_name (v : yaml) : string :=
  match v with
  | YNull => "NoneType"
  | YBool _ => "bool"
  | YInt _ => "int"
  | YStr _ => "str"
  | YMap _ => "dict"
  end.

(** Raised by [v.attr] when the type of [v] has no such attribute. *)
Definition AttributeError (v : yaml) (attr : string) : exn :=
  Exn "AttributeError"
      ("'" +:+ type_name v +:+ "' object has no attribute '" +:+ attr +:+ "'").

(** The truth value of an optional string: [None] and the empty string
    are false. *)
Definition truthy (o : option string) : bool :=
  match o with
  | None => false
  | Some s => negb (String.eqb s "")
  end.

(** ** Collaborators *)

(** The running process: [os.environ], and whether [subprocess.Popen]
    raises for a command and an environment (then no child is started). *)
Module OS.
Record t : Type := Make {
  environ : gmap string string;
  popen_raises : string -> gmap string string -> option exn
}.

(** [subprocess.Popen(cmd, env=env, shell=True)]; the child is not waited
    for. *)
Definition Popen (os : t) (cmd : string) (env : gmap string string) : M unit :=
  emit (EvPopen cmd env);;
  match popen_raises os cmd env with
  | Some e => raise e
  | None => ret tt
  end.
End OS.

(** The [Xrandr] object as [ctl.py] uses it.  [apply] is a field, since
    [Hook.decorate] assigns to it. *)
Module Xrandr.
Record t : Type := Make {
  apply : Profile.t -> M unit;
  get_connected_outputs : M (list XrandrConnection.t)
}.

(** Modelled from the spec: the undecorated display controller of
    [randrctl.xrandr], whose [apply(profile)] succeeds or raises; the call
    itself is an event. *)
Definition new (apply_raises : Profile.t -> option exn)
    (connected : list XrandrConnection.t) : t :=
  {| apply := fun p =>
       emit (EvXrandrApply p);;
       match apply_raises p with
       | Some e => raise e
       | None => ret tt
       end;
     get_connected_outputs := ret connected |}.
End Xrandr.

(** The [ProfileManager] object as [ctl.py] uses it; the class lives in
    [randrctl.profile], so its methods are fields to be supplied. *)
Module ProfileManager.
Record t : Type := Make {
  read_one : string -> M Profile.t;
  read_all : M (list Profile.t);
  profile_from_xrandr : list XrandrConnection.t -> string -> M Profile.t;
  write : Profile.t -> bool -> M unit;
  print : Profile.t -> bool -> M unit
}.
End ProfileManager.

(** ** ProfileMatcher *)

Module ProfileMatcher.

(** Modelled from the spec: the score at the disqualification floor. *)
Definition floor : Z := (-1)%Z.

(** Modelled from the spec: an output is present when a connected output
    has its name. *)
Definition named (n : string) (c : XrandrConnection.t) : bool :=
  String.eqb (XrandrConnection.name c) n.

(** Modelled from the spec: the weight of one output of a profile against
    the connected output of the same name, by the strongest signal of its
    rule: EDID 100, supported modes 50, preferred mode 25, and 1 for an
    output without a rule. *)
Definition weight (rule : option Rule.t) (c : XrandrConnection.t) : Z :=
  match rule with
  | None => 1
  | Some r =>
      match Rule.edid r, Rule.supports r, Rule.prefers r with
      | Some e, _, _ =>
          if String.eqb e (XrandrConnection.edid c) then 100 else 0
      | None, Some s, _ =>
          if bool_decide (s ⊆ XrandrConnection.supported_modes c) then 50 else 0
      | None, None, Some m =>
          if String.eqb m (XrandrConnection.preferred_mode c) then 25 else 0
      | None, None, None => 0
      end
  end%Z.

(** Modelled from the spec: the rule a profile has for an output, if it
    has rules and one of them is for that output. *)
Definition rule_of (p : Profile.t) (n : string) : option Rule.t :=
  match Profile.rules p with
  | None => None
  | Some rs => rs !! n
  end.

(** Modelled from the spec: a profile one of whose outputs is not among
    the connected ones is disqualified; otherwise its score is the sum of
    the weights of its outputs. *)
Fixpoint score_outputs (p : Profile.t) (os : list Output.t)
    (connected : list XrandrConnection.t) : option Z :=
  match os with
  | [] => Some 0%Z
  | o :: os' =>
      match List.find (named (Output.name o)) connected with
      | None => None
      | Some c =>
          match score_outputs p os' connected with
          | None => None
          | Some z => Some (weight (rule_of p (Output.name o)) c + z)%Z
          end
      end
  end.

(** Modelled from the spec: the score of a profile; the floor when it is
    disqualified. *)
Definition score (p : Profile.t) (connected : list XrandrConnection.t) : Z :=
  match score_outputs p (Profile.outputs p) connected with
  | None => floor
  | Some z => z
  end.

(** Modelled from the spec: the order of two results; higher score, then
    higher priority, then more outputs, then the smaller name. *)
Definition outranks (a b : Z * Profile.t) : bool :=
  let (sa, pa) := a in
  let (sb, pb) := b in
  if (sb <? sa)%Z then true else if (sa <? sb)%Z then false
  else if (Profile.priority pb <? Profile.priority pa)%Z then true
  else if (Profile.priority pa <? Profile.priority pb)%Z then false
  else if (length (Profile.outputs pb) <? length (Profile.outputs pa))%nat then true
  else if (length (Profile.outputs pa) <? length (Profile.outputs pb))%nat then false
  else String.leb (Profile.name pa) (Profile.name pb).

(** Modelled from the spec: the results in descending order, by
    insertion. *)
Fixpoint place (r : Z * Profile.t) (l : list (Z * Profile.t))
    : list (Z * Profile.t) :=
  match l with
  | [] => [r]
  | x :: l' => if outranks r x then r :: l else x :: place r l'
  end.

Definition sorted (l : list (Z * Profile.t)) : list (Z * Profile.t) :=
  fold_right place [] l.

(** Modelled from the spec: [match]; the results of the profiles that are
    not disqualified, best first. *)
Definition match_ (profiles : list Profile.t)
    (connected : list XrandrConnection.t) : list (Z * Profile.t) :=
  sorted (List.filter (fun r => (floor <? fst r)%Z)
            (map (fun p => (score p connected, p)) profiles)).

(** Modelled from the spec: [find_best]; the top result, if its score
    exceeds the floor. *)
Definition find_best (profiles : list Profile.t)
    (connected : list XrandrConnection.t) : option Profile.t :=
  match match_ profiles connected with
  | [] => None
  | (s, p) :: _ => if (floor <? s)%Z then Some p else None
  end.

End ProfileMatcher.

(** ** RandrCtl: the facade *)

Module RandrCtl.

Record t : Type := Make {
  profile_manager : ProfileManager.t;
  xrandr : Xrandr.t
}.

Definition switch_to (self : t) (profile_name : string) : M unit :=
  p ← ProfileManager.read_one (profile_manager self) profile_name;
  Xrandr.apply (xrandr self) p.

Definition switch_auto (self : t) : M unit :=
  profiles ← ProfileManager.read_all (profile_manager self);
  xrandr_outputs ← Xrandr.get_connected_outputs (xrandr self);
  let matching := ProfileMatcher.find_best profiles xrandr_outputs in
  match matching with
  | Some m => Xrandr.apply (xrandr self) m
  | None => emit (EvLog WARNING "No matching profile found" [])
  end.

(** The assignments of [dump_current] to the fields of a rule, of an
    output and of the profile. *)
Definition dump_rule (include_supports_rule include_preferred_rule
    include_edid_rule : bool) (rule : Rule.t) : Rule.t :=
  {| Rule.supports :=
       if negb include_supports_rule then None else Rule.supports rule;
     Rule.prefers :=
       if negb include_preferred_rule then None else Rule.prefers rule;
     Rule.edid :=
       if negb include_edid_rule then None else Rule.edid rule |}.

Definition clear_rate (output : Output.t) : Output.t :=
  {| Output.name := Output.name output;
     Output.mode := Output.mode output;
     Output.pos := Output.pos output;
     Output.rotate := Output.rotate output;
     Output.rate := None;
     Output.primary := Output.primary output |}.

Definition set_priority (priority : Z) (profile : Profile.t) : Profile.t :=
  {| Profile.name := Profile.name profile;
     Profile.outputs := Profile.outputs profile;
     Profile.rules := Profile.rules profile;
     Profile.priority := priority |}.

Definition set_rules (rules : option (gmap string Rule.t))
    (profile : Profile.t) : Profile.t :=
  {| Profile.name := Profile.name profile;
     Profile.outputs := Profile.outputs profile;
     Profile.rules := rules;
     Profile.priority := Profile.priority profile |}.

Definition set_outputs (outputs : list Output.t) (profile : Profile.t)
    : Profile.t :=
  {| Profile.name := Profile.name profile;
     Profile.outputs := outputs;
     Profile.rules := Profile.rules profile;
     Profile.priority := Profile.priority profile |}.

Definition dump_current (self : t) (name : string) (to_file : bool)
    (include_supports_rule include_preferred_rule include_edid_rule
     include_refresh_rate : bool) (priority : Z) (json_compatible : bool)
    : M unit :=
  xrandr_connections ← Xrandr.get_connected_outputs (xrandr self);
  profile ← ProfileManager.profile_from_xrandr (profile_manager self)
              xrandr_connections name;
  let profile := set_priority priority profile in
  profile ←
    (if negb (include_edid_rule || include_supports_rule
              || include_preferred_rule)
     then ret (set_rules None profile)
     else
       match Profile.rules profile with
       | None => raise (AttributeError YNull "items")
       | Some rules =>
           ret (set_rules
                  (Some (dump_rule include_supports_rule
                           include_preferred_rule include_edid_rule
                         <$> rules))
                  profile)
       end);
  let profile :=
    if negb include_refresh_rate
    then set_outputs (map clear_rate (Profile.outputs profile)) profile
    else profile in
  if to_file
  then ProfileManager.write (profile_manager self) profile json_compatible
  else ProfileManager.print (profile_manager self) profile json_compatible.

Definition print (self : t) (name : string) (json_compatible : bool)
    : M unit :=
  p ← ProfileManager.read_one (profile_manager self) name;
  ProfileManager.print (profile_manager self) p json_compatible.

End RandrCtl.

(** ** Hook: prior-, post-switch and post-fail hooks around [Xrandr.apply] *)

Module Hook.

Record t : Type := Make {
  prior_switch : yaml;
  post_switch : yaml;
  post_fail : yaml
}.

Definition hook (os : OS.t) (self : t) (hook : yaml) (p : Profile.t)
    (err : option string) : M unit :=
  match hook with
  | YNull => ret tt
  | YStr cmd =>
      if (0 <? len (strip cmd))%nat then
        try_except
          (let env := OS.environ os in
           let env := <["randr_profile" := Profile.name p]> env in
           let env :=
             if truthy err then <["randr_error" := default "" err]> env
             else env in
           emit (EvLog DEBUG "Calling '%s'" [ArgStr cmd]);;
           OS.Popen os cmd env)
          Exception
          (fun e =>
             emit (EvLog WARNING "Error while executing hook '%s': %s"
                     [ArgStr cmd; ArgStr (str e)]))
      else ret tt
  | _ => raise (AttributeError hook "strip")
  end.

Definition apply_hook (os : OS.t) (self : t)
    (do_apply : Profile.t -> M unit) (p : Profile.t) : M unit :=
  try_except
    (hook os self (prior_switch self) p None;;
     do_apply p;;
     hook os self (post_switch self) p None)
    Exception
    (fun e =>
       hook os self (post_fail self) p (Some (str e));;
       raise e).

Definition decorate (os : OS.t) (self : t) (xrandr : Xrandr.t) : Xrandr.t :=
  let do_apply := Xrandr.apply xrandr in
  {| Xrandr.apply := apply_hook os self do_apply;
     Xrandr.get_connected_outputs := Xrandr.get_connected_outputs xrandr |}.

End Hook.

(** ** The file system and the YAML loader *)

(** What [yaml.load] makes of the content of a file: it raises a
    [yaml.YAMLError], or returns a value, or, when the bytes of the file
    are not text in the encoding of the stream, raises the
    [UnicodeDecodeError] of the read. *)
Inductive content : Type :=
| Malformed (msg : string)
| Document (v : yaml)
| Undecodable (msg : string).

(** The directories that exist, and the regular files with their content.
    Permissions are not part of the model. *)
Module FS.
Record t : Type := Make {
  dirs : gset string;
  files : gmap string content
}.
End FS.

Definition ends_with_sep (s : string) : bool :=
  match String.length s with
  | O => false
  | S n => match String.get n s with
           | Some c => Ascii.eqb c "/"
           | None => false
           end
  end.

(** [os.path.join(a, b)] *)
Definition path_join (a b : string) : string :=
  if String.prefix "/" b then b
  else if String.eqb a "" || ends_with_sep a then a +:+ b
  else a +:+ "/" +:+ b.

(** [os.path.isdir(p)] and [os.path.isfile(p)] *)
Definition isdir (fs : FS.t) (p : string) : bool :=
  bool_decide (p ∈ FS.dirs fs).

Definition isfile (fs : FS.t) (p : string) : bool :=
  bool_decide (is_Some (FS.files fs !! p)).

(** The leading directories of a path: its non-empty proper prefixes that
    a separator follows. *)
Fixpoint leading (pre rest : string) : list string :=
  match rest with
  | EmptyString => []
  | String c t =>
      (if Ascii.eqb c "/" && negb (String.eqb pre "") then [pre] else [])
      ++ leading (pre +:+ String c EmptyString) t
  end.

(** The file system with the directory [p] and its leading directories. *)
Definition created (fs : FS.t) (p : string) : FS.t :=
  {| FS.dirs := FS.dirs fs ∪ list_to_set (p :: leading "" p);
     FS.files := FS.files fs |}.

Definition FileExistsError (p : string) : exn :=
  Exn "FileExistsError" ("[Errno 17] File exists: '" +:+ p +:+ "'").

Definition NotADirectoryError (p : string) : exn :=
  Exn "NotADirectoryError" ("[Errno 20] Not a directory: '" +:+ p +:+ "'").

(** [os.makedirs] goes up the leading directories, the longest first, to
    the first one that exists, and makes the missing ones from there:
    [mkdir child] fails when what exists above it is a regular file. *)
Fixpoint mkdir_above (fs : FS.t) (above : list string) (child : string)
    : option exn :=
  match above with
  | [] => None
  | d :: up =>
      if isdir fs d then None
      else if isfile fs d then Some (NotADirectoryError child)
      else mkdir_above fs up d
  end.

(** The error of [os.makedirs(p, exist_ok=True)], if it raises: a
    directory [p] is accepted, a regular file [p] is not. *)
Definition makedirs_error (fs : FS.t) (p : string) : option exn :=
  if isdir fs p then None
  else if isfile fs p then Some (FileExistsError p)
  else mkdir_above fs (rev (leading "" p)) p.

(** [os.makedirs(p, exist_ok=True)] *)
Definition makedirs (fs : FS.t) (p : string) : M FS.t :=
  match makedirs_error fs p with
  | Some e => raise e
  | None => ret (if isdir fs p then fs else created fs p)
  end.

Definition YAMLError (e : exn) : bool := String.eqb (exn_class e) "YAMLError".

(** [yaml.load(stream)] on the open file [path]. *)
Definition yaml_load (fs : FS.t) (path : string) : M yaml :=
  match FS.files fs !! path with
  | Some (Document v) => ret v
  | Some (Malformed msg) => raise (Exn "YAMLError" msg)
  | Some (Undecodable msg) => raise (Exn "UnicodeDecodeError" msg)
  | None => raise (Exn "FileNotFoundError" path)
  end.

(** [config.update(v)]: the keys of a mapping replace those of [config];
    [None] and numbers are not iterable; a string is a sequence of
    one-character strings, none of which is a key-value pair. *)
Definition update (config : gmap string yaml) (v : yaml)
    : M (gmap string yaml) :=
  match v with
  | YMap m => ret (m ∪ config)
  | YStr s =>
      if String.eqb s "" then ret config
      else raise (Exn "ValueError"
        "dictionary update sequence element #0 has length 1; 2 is required")
  | _ => raise (Exn "TypeError"
                  ("'" +:+ type_name v +:+ "' object is not iterable"))
  end.

(** [try: body / except C: handler / else: orelse] *)
Definition try_except_else {A B} (body : M A) (catches : exn -> bool)
    (handler : exn -> M B) (orelse : A -> M B) : M B :=
  match body with
  | (t, inl e) =>
      if catches e then let (t', r) := handler e in (t ++ t', r)
      else (t, inl e)
  | (t, inr a) => let (t', r) := orelse a in (t ++ t', r)
  end.

(** ** CtlFactory: parses the configuration and builds the facade *)

(** What [get_randrctl] instantiates: the process, and the constructors
    [ProfileManager(profile_paths)] and [Xrandr()]. *)
Module Runtime.
Record t : Type := Make {
  os : OS.t;
  ProfileManager_new : list string -> ProfileManager.t;
  Xrandr_new : Xrandr.t
}.
End Runtime.

Module CtlFactory.

Definition config_name : string := "config.yaml".
Definition profile_dir : string := "profiles".

Record t : Type := Make {
  preferred_home : string;
  homes : list string
}.

(** [CtlFactory(homes)] *)
Definition new (homes : list string) : M t :=
  match homes with
  | [] => raise (Exn "IndexError" "list index out of range")
  | h :: _ => ret {| preferred_home := h; homes := homes |}
  end.

Definition is_valid_home (fs : FS.t) (home_dir : string) : bool :=
  let profiles := path_join home_dir profile_dir in
  isdir fs profiles.

Definition init_home (fs : FS.t) (home_dir : string) : M FS.t :=
  emit (EvLog WARNING "Creating home under %s" [ArgStr home_dir]);;
  let profiles := path_join home_dir profile_dir in
  makedirs fs profiles.

(** [valid_homes.count(h)] *)
Definition count (h : string) (l : list string) : nat :=
  length (List.filter (String.eqb h) l).

(** [ensure_homes] assigns to [self.homes] and may create a directory:
    it returns the object and the file system it leaves. *)
Definition ensure_homes (fs : FS.t) (self : t) : M (t * FS.t) :=
  let valid_homes := List.filter (is_valid_home fs) (homes self) in
  '(valid_homes, fs) ←
    (if (length valid_homes =? 0)%nat then
       emit (EvLog WARNING "No home directories found among %s"
               [ArgList (homes self)]);;
       fs ← init_home fs (preferred_home self);
       ret ([preferred_home self], fs)
     else if (count (preferred_home self) valid_homes =? 0)%nat then
       emit (EvLog WARNING
               "No home directory found under preferred location %s"
               [ArgStr (preferred_home self)]);;
       ret (valid_homes, fs)
     else ret (valid_homes, fs));
  let self := {| preferred_home := preferred_home self;
                 homes := valid_homes |} in
  emit (EvLog INFO "Using %s as home directories" [ArgList (homes self)]);;
  ret (self, fs).

Definition _config_safe (config : gmap string yaml) (section property : string)
    : M yaml :=
  match config !! section with
  | Some (YMap m) => ret (default YNull (m !! property))
  | Some v => raise (AttributeError v "get")
  | None => ret YNull
  end.

Definition _configs (fs : FS.t) (self : t) : list string :=
  List.filter (isfile fs)
    (map (fun homedir => path_join homedir config_name) (homes self)).

(** The body of the loop of [get_randrctl] over the config files: the
    file is opened, parsed, and merged into [config]. *)
Definition load_file (fs : FS.t) (config_file : string)
    (config : gmap string yaml) : M (gmap string yaml) :=
  try_except_else
    (v ← yaml_load fs config_file; update config v)
    YAMLError
    (fun e =>
       emit (EvLog ERROR "error reading configuration file %s"
               [ArgStr config_file]);;
       ret config)
    (fun config =>
       emit (EvLog DEBUG "read configuration from %s" [ArgStr config_file]);;
       ret config).

(** The loop itself. *)
Fixpoint load (fs : FS.t) (config_files : list string)
    (config : gmap string yaml) : M (gmap string yaml) :=
  match config_files with
  | [] => ret config
  | config_file :: rest =>
      config ← load_file fs config_file config;
      load fs rest config
  end.

Definition is_not_None (v : yaml) : bool :=
  match v with
  | YNull => false
  | _ => true
  end.

(** The first part of [get_randrctl]: the configuration read from the
    config files, the file of the preferred home last. *)
Definition read_config (fs : FS.t) (self : t) : M (gmap string yaml) :=
  let config_files := rev (_configs fs self) in
  load fs config_files ∅.

Definition get_randrctl (rt : Runtime.t) (fs : FS.t) (self : t)
    : M RandrCtl.t :=
  config ← read_config fs self;
  let profile_paths :=
    map (fun x => path_join x profile_dir) (homes self) in
  let profile_reader := Runtime.ProfileManager_new rt profile_paths in
  let xrandr := Runtime.Xrandr_new rt in
  prior_switch ← _config_safe config "hooks" "prior_switch";
  post_switch ← _config_safe config "hooks" "post_switch";
  post_fail ← _config_safe config "hooks" "post_fail";
  let xrandr :=
    if is_not_None prior_switch || is_not_None post_switch
       || is_not_None post_fail
    then
      let hook := Hook.Make prior_switch post_switch post_fail in
      Hook.decorate (Runtime.os rt) hook xrandr
    else xrandr in
  ret (RandrCtl.Make profile_reader xrandr).

End CtlFactory.

(** ** The statements of the specification, for comparison *)

(** The environment of a hook as the specification words it: the
    environment of the process, with [randr_profile] bound to the name of
    the profile and, when an error is given, [randr_error] bound to it. *)
Definition described_env (os : OS.t) (p : Profile.t) (error : option string)
    : gmap string string :=
  let env := <["randr_profile" := Profile.name p]> (OS.environ os) in
  match error with
  | Some e => <["randr_error" := e]> env
  | None => env
  end.

(** The value of a top-level key in the first of the files, taken in the
    given order, that holds a mapping with that key. *)
Fixpoint value_in_files (fs : FS.t) (paths : list string) (key : string)
    : option yaml :=
  match paths with
  | [] => None
  | path :: rest =>
      match FS.files fs !! path with
      | Some (Document (YMap m)) =>
          match m !! key with
          | Some v => Some v
          | None => value_in_files fs rest key
          end
      | _ => value_in_files fs rest key
      end
  end.

(** The value of a top-level key as the specification words it: the value
    in the config file of the most preferred home that defines the key. *)
Definition preferred_value (fs : FS.t) (homes : list string) (key : string)
    : option yaml :=
  value_in_files fs
    (map (fun home => path_join home CtlFactory.config_name) homes) key.

(** A config file that [yaml.load] rejects, or whose document is a
    mapping. *)
Definition config_like (c : content) : Prop :=
  match c with
  | Malformed _ => True
  | Document (YMap _) => True
  | Document _ => False
  | Undecodable _ => False
  end.

(** A profile is disqualified when it names an output that is not among
    the connected ones. *)
Definition disqualified (p : Profile.t) (connected : list XrandrConnection.t)
    : Prop :=
  ∃ o, In o (Profile.outputs p)
       ∧ ∀ c, In c connected → XrandrConnection.name c ≠ Output.name o.

(** A trace that begins with the launch of [cmd] in the environment [env]
    and holds no other launch. *)
Definition launches (t : list event) (cmd : string)
    (env : gmap string string) : Prop :=
  ∃ log, t = EvLog DEBUG "Calling '%s'" [ArgStr cmd] :: EvPopen cmd env :: log
         ∧ ∀ c e, ¬ In (EvPopen c e) log.


(** ** Measures used in the statements *)

(** The number of calls of [subprocess.Popen] in a trace. *)
Definition is_popen (ev : event) : bool :=
  match ev with
  | EvPopen _ _ => true
  | _ => false
  end.

Definition launches_in (t : list event) : nat :=
  length (List.filter is_popen t).

(** A hook command that is unset or blank. *)
Definition unset_or_blank (cmd : option string) : Prop :=
  match cmd with
  | None => True
  | Some c => strip c = ""
  end.

(** A value that is neither [None] nor a string. *)
Definition not_a_command (v : yaml) : Prop :=
  match v with
  | YNull | YStr _ => False
  | _ => True
  end.

(** Files on which the loop body of [get_randrctl] does not raise: those
    that [yaml.load] rejects with a [YAMLError], and those whose document
    is a mapping or the empty string. *)
Definition loadable (c : content) : bool :=
  match c with
  | Malformed _ => true
  | Document (YMap _) => true
  | Document (YStr s) => String.eqb s ""
  | Document _ => false
  | Undecodable _ => false
  end.

Definition file_loadable (fs : FS.t) (path : string) : bool :=
  match FS.files fs !! path with
  | Some c => loadable c
  | None => false
  end.

(** The line the loop body logs for a file it gets through. *)
Definition log_entry (fs : FS.t) (path : string) : event :=
  match FS.files fs !! path with
  | Some (Malformed _) =>
      EvLog ERROR "error reading configuration file %s" [ArgStr path]
  | _ => EvLog DEBUG "read configuration from %s" [ArgStr path]
  end.

(** The entry of the [hooks] section of a configuration, [None] when the
    section or the entry is missing. *)
Definition hooks_entry (config : gmap string yaml) (property : string) : yaml :=
  match config !! "hooks" with
  | Some (YMap m) => default YNull (m !! property)
  | _ => YNull
  end.

(** Where [dump_current] hands the profile in the end. *)
Definition hand_over (self : RandrCtl.t) (to_file : bool)
    (profile : Profile.t) (json_compatible : bool) : M unit :=
  if to_file
  then ProfileManager.write (RandrCtl.profile_manager self) profile
         json_compatible
  else ProfileManager.print (RandrCtl.profile_manager self) profile
         json_compatible.

(** ** Sample data *)

Definition sample_os : OS.t :=
  OS.Make {["HOME" := "/home/u"]} (fun _ _ => None).

(** A process in which no child can be started. *)
Definition no_shell_os : OS.t :=
  OS.Make {["HOME" := "/home/u"]}
    (fun _ _ => Some (Exn "FileNotFoundError" "No such file: '/bin/sh'")).

Definition docked : Profile.t :=
  Profile.Make "docked"
    [Output.Make "DP-1" "1920x1080" "0x0" "normal" (Some 60%Z) true;
     Output.Make "eDP-1" "1366x768" "1920x0" "normal" None false]
    (Some {["DP-1" := Rule.Make (Some "X1") None None]}) 100.

(** A controller whose [apply] raises an error with the given message. *)
Definition broken_xrandr (msg : string) : Xrandr.t :=
  Xrandr.new (fun _ => Some (Exn "XrandrException" msg)) [].

Definition working_xrandr : Xrandr.t := Xrandr.new (fun _ => None) [].


Definition office : Profile.t :=
  Profile.Make "office"
    [Output.Make "DP-1" "2560x1440" "0x0" "normal" (Some 60%Z) true]
    (Some {["DP-1" := Rule.Make (Some "X1") None None]}) 100.

Definition laptop : Profile.t :=
  Profile.Make "laptop"
    [Output.Make "eDP-1" "1366x768" "0x0" "normal" (Some 60%Z) true]
    (Some {["eDP-1" := Rule.Make (Some "X2") None None]}) 50.

(** A profile whose rule has all three hints. *)
Definition beamer : Profile.t :=
  Profile.Make "beamer"
    [Output.Make "HDMI-1" "1920x1080" "0x0" "normal" (Some 60%Z) true]
    (Some {["HDMI-1" := Rule.Make (Some "X9") (Some {["1920x1080"]})
                          (Some "1920x1080")]}) 10.

Definition panel : XrandrConnection.t :=
  XrandrConnection.Make "eDP-1" "X2" {["1366x768"]} "1366x768" true.

Definition hdmi : XrandrConnection.t :=
  XrandrConnection.Make "HDMI-1" "X9" {["1920x1080"]} "1920x1080" true.

(** A profile manager over a fixed store: [profile_from_xrandr] answers
    with the profile [live] under the name asked for, and [write] and
    [print] record what they are given. *)
Definition sample_manager (stored : list Profile.t) (live : Profile.t)
    : ProfileManager.t :=
  {| ProfileManager.read_one := fun n =>
       match List.find (fun q => String.eqb (Profile.name q) n) stored with
       | Some q => ret q
       | None => raise (Exn "NoSuchProfile" n)
       end;
     ProfileManager.read_all := ret stored;
     ProfileManager.profile_from_xrandr := fun _ n =>
       ret (Profile.Make n (Profile.outputs live) (Profile.rules live)
              (Profile.priority live));
     ProfileManager.write := fun q flow => emit (EvWrite q flow);
     ProfileManager.print := fun q flow => emit (EvPrint q flow) |}.

Definition sample_runtime : Runtime.t :=
  Runtime.Make sample_os (fun _ => sample_manager [office; laptop] docked)
    working_xrandr.

(** Two homes with a config file each: the preferred one sets one hook,
    the other one sets two. *)
Definition two_configs : FS.t :=
  FS.Make {["/home/u/.config/randrctl/profiles"; "/etc/randrctl/profiles"]}
    {["/home/u/.config/randrctl/config.yaml" :=
        Document (YMap {["hooks" :=
          YMap {["post_switch" := YStr "notify-send done"]}]});
      "/etc/randrctl/config.yaml" :=
        Document (YMap {["hooks" :=
          YMap {["prior_switch" := YStr "echo start";
                 "post_fail" := YStr "echo fail"]}]})]}.

(** The same, with a file in the preferred home that does not parse. *)
Definition one_malformed : FS.t :=
  FS.Make {["/home/u/.config/randrctl/profiles"; "/etc/randrctl/profiles"]}
    {["/home/u/.config/randrctl/config.yaml" :=
        Malformed "mapping values are not allowed here";
      "/etc/randrctl/config.yaml" :=
        Document (YMap {["hooks" :=
          YMap {["prior_switch" := YStr "echo start"]}]})]}.



(** A config file with the key [hooks] and nothing under it. *)
Definition empty_hooks : FS.t :=
  FS.Make {["/etc/randrctl/profiles"]}
    {["/etc/randrctl/config.yaml" := Document (YMap {["hooks" := YNull]})]}.

(** No home, and a regular file where the profiles directory of the
    preferred home would be. *)
Definition profiles_is_a_file : FS.t :=
  FS.Make ∅ {["/home/u/.local/randrctl/profiles" := Document (YStr "notes")]}.

Definition two_homes : CtlFactory.t :=
  CtlFactory.Make "/home/u/.config/randrctl"
    ["/home/u/.config/randrctl"; "/etc/randrctl"].

(** * Properties *)

(** ** The monad *)

Lemma bind_ret_l {A B} (a : A) (f : A -> M B) : (ret a ≫= f) = f a.
Proof. unfold mbind, M_bind, bind, ret. by destruct (f a). Qed.


Lemma bind_value {A B} (m : M A) (f : A -> M B) t a :
  m = (t, inr a) → (m ≫= f) = (t ++ trace (f a), outcome (f a)).
Proof. intros ->. unfold mbind, M_bind, bind. by destruct (f a). Qed.

Lemma bind_raises {A B} (m : M A) (f : A -> M B) t e :
  m = (t, inl e) → (m ≫= f) = (t, inl e).
Proof. by intros ->. Qed.

Lemma M_eta {A} (m : M A) : m = (trace m, outcome m).
Proof. by destruct m. Qed.

(** ** Strings *)

Lemma lstrip_blank s :
  lstrip s = "" ↔ Forall (λ a, py_isspace a = true) (list_ascii_of_string s).
Proof.
  induction s as [|a s IH]; simpl.
  - split; [constructor | done].
  - destruct (py_isspace a) eqn:Ha.
    + rewrite IH. split; [by constructor | by inversion 1].
    + split; [done | inversion 1; congruence].
Qed.

Lemma rstrip_blank s :
  rstrip s = "" ↔ Forall (λ a, py_isspace a = true) (list_ascii_of_string s).
Proof.
  induction s as [|a s IH]; simpl.
  - split; [constructor | done].
  - destruct (rstrip s) eqn:Hs.
    + destruct (py_isspace a) eqn:Ha.
      * split; [constructor; [done | by apply IH] | done].
      * split; [done | inversion 1; congruence].
    + split; [done |]. inversion 1 as [|? ? _ Hall]; subst.
      apply IH in Hall. done.
Qed.

Lemma lstrip_suffix s :
  ∃ pre, list_ascii_of_string s = pre ++ list_ascii_of_string (lstrip s)
         ∧ Forall (λ a, py_isspace a = true) pre.
Proof.
  induction s as [|a s (pre & Heq & Hpre)]; simpl.
  - by exists [].
  - destruct (py_isspace a) eqn:Ha.
    + exists (a :: pre). simpl. rewrite Heq. by split; [|constructor].
    + by exists [].
Qed.

(** A command is blank after trimming exactly when all its characters
    are whitespace. *)
Lemma strip_blank s :
  strip s = "" ↔ Forall (λ a, py_isspace a = true) (list_ascii_of_string s).
Proof.
  unfold strip. rewrite rstrip_blank.
  destruct (lstrip_suffix s) as (pre & Heq & Hpre). rewrite Heq.
  rewrite Forall_app. tauto.
Qed.

Lemma len_strip_pos cmd : strip cmd ≠ "" → (0 <? len (strip cmd))%nat = true.
Proof. unfold len. destruct (strip cmd); [done | reflexivity]. Qed.

(** ** Hook.hook *)

Section HookRun.
Variables (os : OS.t) (self : Hook.t) (p : Profile.t).

Lemma hook_None err : Hook.hook os self YNull p err = ([], inr tt).
Proof. reflexivity. Qed.

Lemma hook_blank cmd err :
  strip cmd = "" → Hook.hook os self (YStr cmd) p err = ([], inr tt).
Proof. intros H. unfold Hook.hook. by rewrite H. Qed.

Lemma hook_env_eq err :
  (if truthy err
   then <["randr_error" := default "" err]>
          (<["randr_profile" := Profile.name p]> (OS.environ os))
   else <["randr_profile" := Profile.name p]> (OS.environ os))
  = described_env os p (if truthy err then err else None).
Proof. destruct err as [e|]; simpl; [by destruct (negb _) | done]. Qed.

Lemma hook_launch cmd err :
  strip cmd ≠ "" →
  let env := described_env os p (if truthy err then err else None) in
  Hook.hook os self (YStr cmd) p err
  = ([EvLog DEBUG "Calling '%s'" [ArgStr cmd]; EvPopen cmd env]
     ++ match OS.popen_raises os cmd env with
        | Some e => [EvLog WARNING "Error while executing hook '%s': %s"
                       [ArgStr cmd; ArgStr (str e)]]
        | None => []
        end,
     inr tt).
Proof.
  intros Hne env. unfold Hook.hook.
  rewrite (len_strip_pos _ Hne), hook_env_eq. fold env.
  unfold OS.Popen, try_except, mbind, M_bind, bind, emit, ret, raise.
  by destruct (OS.popen_raises os cmd env).
Qed.

Lemma hook_launches cmd err :
  strip cmd ≠ "" →
  launches (trace (Hook.hook os self (YStr cmd) p err)) cmd
    (described_env os p (if truthy err then err else None)).
Proof.
  intros Hne. rewrite hook_launch by done. simpl.
  eexists. split; [reflexivity|].
  intros c e. destruct (OS.popen_raises _ _ _); simpl; [|tauto].
  intros [H|[]]. discriminate.
Qed.

(** A hook that is unset or a string never raises. *)
Lemma hook_returns cmd err :
  outcome (Hook.hook os self (of_opt_str cmd) p err) = inr tt.
Proof.
  destruct cmd as [cmd|]; [|done]. simpl of_opt_str.
  destruct (string_dec (strip cmd) "") as [H|H].
  - by rewrite hook_blank.
  - by rewrite hook_launch.
Qed.

End HookRun.

Section ApplyHook.
Variables (os : OS.t) (prior post fail : option string).
Variables (do_apply : Profile.t -> M unit) (p : Profile.t).

Let self := Hook.Make (of_opt_str prior) (of_opt_str post) (of_opt_str fail).
Let run (cmd : option string) (err : option string) : list event :=
  trace (Hook.hook os self (of_opt_str cmd) p err).

Lemma hook_run cmd err :
  Hook.hook os self (of_opt_str cmd) p err = (run cmd err, inr tt).
Proof.
  unfold run. rewrite (M_eta (Hook.hook _ _ _ _ _)) at 1.
  by rewrite hook_returns.
Qed.

(** The events and the outcome of the decorated [apply], by the outcome of
    the controller's own. *)
Lemma apply_hook_eq :
  Hook.apply_hook os self do_apply p
  = match outcome (do_apply p) with
    | inr _ => (run prior None ++ trace (do_apply p) ++ run post None, inr tt)
    | inl e =>
        (run prior None ++ trace (do_apply p) ++ run fail (Some (str e)),
         inl e)
    end.
Proof.
  unfold Hook.apply_hook. simpl.
  rewrite !hook_run.
  destruct (do_apply p) as [t [e|[]]]; simpl.
  - rewrite hook_run.
    unfold try_except, mbind, M_bind, bind, raise, Exception; simpl.
    by rewrite app_nil_r, app_assoc.
  - by unfold try_except, mbind, M_bind, bind; simpl.
Qed.

Lemma run_launches cmd err :
  strip cmd ≠ "" →
  launches (run (Some cmd) err) cmd
    (described_env os p (if truthy err then err else None)).
Proof.
  intros Hne. unfold run. simpl of_opt_str. by apply hook_launches.
Qed.

End ApplyHook.

Lemma hook_not_a_command os self p v err :
  not_a_command v →
  Hook.hook os self v p err = raise (AttributeError v "strip").
Proof. by destruct v. Qed.

Lemma hook_eta os self p cmd err :
  Hook.hook os self (of_opt_str cmd) p err
  = (trace (Hook.hook os self (of_opt_str cmd) p err), inr tt).
Proof.
  rewrite (M_eta (Hook.hook _ _ _ _ _)) at 1. by rewrite hook_returns.
Qed.

Lemma trace_bind_prefix {A B} (m : M A) (f : A → M B) :
  ∃ rest, trace (m ≫= f) = trace m ++ rest.
Proof.
  unfold mbind, M_bind, bind. destruct m as [t [e|a]]; simpl.
  - exists []. by rewrite app_nil_r.
  - destruct (f a) as [t' r]. by exists t'.
Qed.

Lemma trace_try_except_prefix {A} (body : M A) catches handler :
  ∃ rest, trace (try_except body catches handler) = trace body ++ rest.
Proof.
  unfold try_except. destruct body as [t [e|a]]; simpl.
  - destruct (catches e); [destruct (handler e) as [t' r]; by exists t'|].
    exists []. by rewrite app_nil_r.
  - exists []. by rewrite app_nil_r.
Qed.

Section HookedApply.
Variables (os : OS.t) (do_apply : Profile.t → M unit) (p : Profile.t).

(** The hooked apply when the controller returns: the post-fail entry
    plays no part. *)
Lemma apply_hook_returns_eq (prior post : option string) (fail : yaml) t :
  do_apply p = (t, inr tt) →
  let self := Hook.Make (of_opt_str prior) (of_opt_str post) fail in
  Hook.apply_hook os self do_apply p
  = (trace (Hook.hook os self (of_opt_str prior) p None) ++ t
     ++ trace (Hook.hook os self (of_opt_str post) p None),
     inr tt).
Proof.
  intros Hok self. unfold Hook.apply_hook. simpl Hook.prior_switch.
  simpl Hook.post_switch.
  rewrite (hook_eta os self p prior), (hook_eta os self p post), Hok.
  by unfold try_except, mbind, M_bind, bind; simpl.
Qed.

(** The hooked apply when the controller raises: the post-switch entry
    plays no part. *)
Lemma apply_hook_raises_eq (prior : option string) (post : yaml)
    (fail : option string) t e :
  do_apply p = (t, inl e) →
  let self := Hook.Make (of_opt_str prior) post (of_opt_str fail) in
  Hook.apply_hook os self do_apply p
  = (trace (Hook.hook os self (of_opt_str prior) p None) ++ t
     ++ trace (Hook.hook os self (of_opt_str fail) p (Some (str e))),
     inl e).
Proof.
  intros Hraise self. unfold Hook.apply_hook. simpl Hook.prior_switch.
  simpl Hook.post_fail.
  rewrite (hook_eta os self p prior), Hraise.
  unfold try_except, mbind, M_bind, bind, Exception. simpl.
  rewrite (hook_eta os self p fail). unfold raise. simpl.
  by rewrite !app_nil_r, app_assoc.
Qed.

(** The prior-switch hook and then the controller, whatever the other two
    entries are. *)
Lemma apply_hook_prefix (prior : option string) (post fail : yaml) :
  let self := Hook.Make (of_opt_str prior) post fail in
  ∃ rest,
    trace (Hook.apply_hook os self do_apply p)
    = trace (Hook.hook os self (of_opt_str prior) p None)
      ++ trace (do_apply p) ++ rest.
Proof.
  intros self. unfold Hook.apply_hook. simpl Hook.prior_switch.
  match goal with
  | |- ∃ rest, trace (try_except ?body ?c ?h) = _ =>
      destruct (trace_try_except_prefix body c h) as [r1 H1]
  end.
  rewrite H1, (hook_eta os self p prior).
  match goal with
  | |- context [mbind ?f (?t, inr tt)] =>
      rewrite (bind_value (t, inr tt) f t tt eq_refl)
  end.
  cbv beta.
  match goal with
  | |- context [trace (do_apply p ≫= ?next)] =>
      destruct (trace_bind_prefix (do_apply p) next) as [r2 H2]
  end.
  unfold trace at 1. cbn [fst]. rewrite H2. exists (r2 ++ r1).
  by rewrite <- !app_assoc.
Qed.

(** C2, as the code has it: with a prior-switch command that is unset or
    a string, the hooked apply runs the prior-switch hook before the call
    of the controller, whatever that call does later; a command that is
    not blank is launched there.  When moreover the post-switch command is
    unset or a string and the call succeeds, the post-switch hook is run
    after it (and launched, when not blank), the result is a normal
    return, and the post-fail entry plays no part: whatever it is set to,
    the run is the same. *)
Theorem apply_hook_prior_then_post (prior : option string)
    (post fail : yaml) :
  let self := Hook.Make (of_opt_str prior) post fail in
  let before := trace (Hook.hook os self (of_opt_str prior) p None) in
  (∃ rest, trace (Hook.apply_hook os self do_apply p)
           = before ++ trace (do_apply p) ++ rest)
  ∧ (∀ cmd, prior = Some cmd → strip cmd ≠ "" →
       launches before cmd (described_env os p None))
  ∧ (∀ post', post = of_opt_str post' → outcome (do_apply p) = inr tt →
       Hook.apply_hook os self do_apply p
       = (before ++ trace (do_apply p)
          ++ trace (Hook.hook os self post p None), inr tt)
       ∧ (∀ cmd, post' = Some cmd → strip cmd ≠ "" →
            launches (trace (Hook.hook os self post p None)) cmd
              (described_env os p None))
       ∧ ∀ fail' : yaml,
           Hook.apply_hook os (Hook.Make (of_opt_str prior) post fail')
             do_apply p
           = Hook.apply_hook os self do_apply p).
Proof.
  intros self before. split; [|split].
  - apply apply_hook_prefix.
  - intros cmd Hcmd Hne. unfold before. rewrite Hcmd.
    by apply (hook_launches os self p cmd None).
  - intros post' Hpost Hok.
    destruct (do_apply p) as [t [e|[]]] eqn:Hrun; [discriminate|].
    split; [|split].
    + unfold self, before. rewrite Hpost.
      apply (apply_hook_returns_eq prior post' fail t Hrun).
    + intros cmd Hcmd Hne. rewrite Hpost, Hcmd.
      by apply (hook_launches os self p cmd None).
    + intros fail'. unfold self. rewrite Hpost.
      rewrite (apply_hook_returns_eq prior post' fail' t Hrun).
      by rewrite (apply_hook_returns_eq prior post' fail t Hrun).
Qed.

(** C3, as the code has it: with prior-switch and post-fail commands that
    are unset or strings, when the call of the controller raises, the
    post-fail hook is run after it with the message of the error, and the
    error itself is raised again.  A post-fail command that is not blank
    is launched with [randr_error] bound to the message when the message
    is not empty, and with [randr_error] as inherited when it is empty.
    When the post-switch command too is unset or a string, the outcome of
    the hooked apply is always the outcome of the controller's call; and
    a launch that fails is logged as a warning while the hook returns
    normally. *)
Theorem apply_hook_failure (prior : option string) (post : yaml)
    (fail : option string) :
  let self := Hook.Make (of_opt_str prior) post (of_opt_str fail) in
  (∀ t e, do_apply p = (t, inl e) →
     Hook.apply_hook os self do_apply p
     = (trace (Hook.hook os self (of_opt_str prior) p None) ++ t
        ++ trace (Hook.hook os self (of_opt_str fail) p (Some (str e))),
        inl e)
     ∧ ∀ cmd, fail = Some cmd → strip cmd ≠ "" →
         launches
           (trace (Hook.hook os self (of_opt_str fail) p (Some (str e))))
           cmd
           (described_env os p
              (if String.eqb (str e) "" then None else Some (str e))))
  ∧ (∀ post', post = of_opt_str post' →
       outcome (Hook.apply_hook os self do_apply p) = outcome (do_apply p))
  ∧ (∀ cmd err ex,
       strip cmd ≠ "" →
       let env := described_env os p (if truthy err then err else None) in
       OS.popen_raises os cmd env = Some ex →
       Hook.hook os self (YStr cmd) p err
       = ([EvLog DEBUG "Calling '%s'" [ArgStr cmd]; EvPopen cmd env;
           EvLog WARNING "Error while executing hook '%s': %s"
             [ArgStr cmd; ArgStr (str ex)]],
          inr tt)).
Proof.
  intros self. split; [|split].
  - intros t e Hraise. split.
    + apply (apply_hook_raises_eq prior post fail t e Hraise).
    + intros cmd Hcmd Hne. rewrite Hcmd.
      pose proof (hook_launches os self p cmd (Some (str e)) Hne) as H.
      simpl truthy in H. by destruct (String.eqb (str e) "").
  - intros post' Hpost. unfold self. rewrite Hpost.
    destruct (do_apply p) as [t [e|[]]] eqn:Hrun.
    + by rewrite (apply_hook_raises_eq prior (of_opt_str post') fail t e Hrun).
    + by rewrite (apply_hook_returns_eq prior post' (of_opt_str fail) t Hrun).
  - intros cmd err ex Hne env Hex.
    rewrite hook_launch by done. fold env. by rewrite Hex.
Qed.

End HookedApply.

Lemma apply_hook_prior_then_post_witness :
  launches
    (trace (Hook.hook sample_os
              (Hook.Make (YStr "echo start") (YStr "echo done") YNull)
              (YStr "echo start") docked None))
    "echo start" (described_env sample_os docked None)
  ∧ Hook.apply_hook sample_os
      (Hook.Make (YStr "echo start") (YStr "echo done") YNull)
      (Xrandr.apply working_xrandr) docked
    = ([EvLog DEBUG "Calling '%s'" [ArgStr "echo start"];
        EvPopen "echo start" (described_env sample_os docked None);
        EvXrandrApply docked;
        EvLog DEBUG "Calling '%s'" [ArgStr "echo done"];
        EvPopen "echo done" (described_env sample_os docked None)],
       inr tt).
Proof.
  destruct (apply_hook_prior_then_post sample_os
              (Xrandr.apply working_xrandr) docked (Some "echo start")
              (YStr "echo done") YNull)
    as (_ & Hprior & Hpost).
  destruct (Hpost (Some "echo done") eq_refl eq_refl) as (Hrun & _ & _).
  split.
  - apply (Hprior "echo start"); [reflexivity|]. vm_compute. discriminate.
  - etrans; [exact Hrun | reflexivity].
Defined.

(** C2 as worded fails for hook entries that are not strings, which
    [get_randrctl] passes on as they are.  With [post_switch: 5] the
    controller succeeds and the post-fail command is launched all the
    same; with [prior_switch: 5] the controller is never called. *)
Lemma apply_hook_not_a_string_breaks_order :
  (outcome (Xrandr.apply working_xrandr docked) = inr tt
   ∧ In (EvPopen "echo fail"
           (described_env sample_os docked
              (Some "'int' object has no attribute 'strip'")))
       (trace (Hook.apply_hook sample_os
                 (Hook.Make (YStr "echo start") (YInt 5) (YStr "echo fail"))
                 (Xrandr.apply working_xrandr) docked)))
  ∧ ¬ In (EvXrandrApply docked)
        (trace (Hook.apply_hook sample_os
                  (Hook.Make (YInt 5) YNull (YStr "echo fail"))
                  (Xrandr.apply working_xrandr) docked)).
Proof.
  split; [split|].
  - reflexivity.
  - do 4 right. left. reflexivity.
  - intros [H|[H|[]]]; discriminate H.
Qed.

Lemma apply_hook_failure_witness :
  Hook.apply_hook sample_os
    (Hook.Make (YStr "echo start") YNull (YStr "echo fail"))
    (Xrandr.apply (broken_xrandr "boom")) docked
  = ([EvLog DEBUG "Calling '%s'" [ArgStr "echo start"];
      EvPopen "echo start" (described_env sample_os docked None);
      EvXrandrApply docked;
      EvLog DEBUG "Calling '%s'" [ArgStr "echo fail"];
      EvPopen "echo fail" (described_env sample_os docked (Some "boom"))],
     inl (Exn "XrandrException" "boom"))
  ∧ Hook.hook no_shell_os (Hook.Make YNull YNull YNull) (YStr "echo start")
      docked None
    = ([EvLog DEBUG "Calling '%s'" [ArgStr "echo start"];
        EvPopen "echo start" (described_env no_shell_os docked None);
        EvLog WARNING "Error while executing hook '%s': %s"
          [ArgStr "echo start"; ArgStr "No such file: '/bin/sh'"]],
       inr tt).
Proof.
  destruct (apply_hook_failure sample_os
              (Xrandr.apply (broken_xrandr "boom")) docked
              (Some "echo start") YNull (Some "echo fail"))
    as (Hraise & _ & _).
  destruct (Hraise [EvXrandrApply docked] (Exn "XrandrException" "boom"))
    as (Hrun & _); [reflexivity|].
  destruct (apply_hook_failure no_shell_os (Xrandr.apply working_xrandr)
              docked None YNull None) as (_ & _ & Hlog).
  split.
  - etrans; [exact Hrun | reflexivity].
  - apply (Hlog "echo start" None
             (Exn "FileNotFoundError" "No such file: '/bin/sh'"));
      [vm_compute; discriminate | reflexivity].
Defined.

(** C3 as worded fails in two ways.  For an error whose message is empty,
    the post-fail hook is launched and no launch has [randr_error] bound
    to the message.  For a post-fail entry that is not a string, the hook
    raises, and the caller gets that error instead of the controller's. *)
Lemma apply_hook_failure_not_as_worded :
  (¬ ∃ env,
       In (EvPopen "echo fail" env)
         (trace (Hook.apply_hook sample_os
                   (Hook.Make (YStr "echo start") YNull (YStr "echo fail"))
                   (Xrandr.apply (broken_xrandr "")) docked))
       ∧ env !! "randr_error" = Some "")
  ∧ outcome (Xrandr.apply (broken_xrandr "boom") docked)
    = inl (Exn "XrandrException" "boom")
  ∧ outcome (Hook.apply_hook sample_os (Hook.Make YNull YNull (YInt 5))
               (Xrandr.apply (broken_xrandr "boom")) docked)
    ≠ inl (Exn "XrandrException" "boom").
Proof.
  split; [|split].
  - intros (env & Hin & Henv).
    pose proof (apply_hook_eq sample_os (Some "echo start") None
                  (Some "echo fail") (Xrandr.apply (broken_xrandr "")) docked)
      as Heq.
    cbv zeta in Heq. simpl of_opt_str in Heq. rewrite Heq in Hin. clear Heq.
    simpl outcome in Hin. cbv beta iota in Hin. simpl of_opt_str in Hin.
    rewrite !hook_launch in Hin by (vm_compute; discriminate).
    simpl in Hin.
    destruct Hin as [Hin|[Hin|[Hin|[Hin|[Hin|[]]]]]]; try discriminate Hin.
    injection Hin as <-. vm_compute in Henv. discriminate.
  - reflexivity.
  - vm_compute. discriminate.
Qed.


(** C4, as the code has it: a hook run with a command that is not blank
    calls [Popen] once, with the environment of the process extended by
    [randr_profile], bound to the name of the profile, and by
    [randr_error], bound to the error, exactly when an error is given and
    is not the empty string; a run whose command is unset or blank does
    nothing. *)
Theorem hook_environment (os : OS.t) (self : Hook.t) (p : Profile.t)
    (err : option string) :
  (∀ cmd, strip cmd ≠ "" →
     launches (trace (Hook.hook os self (YStr cmd) p err)) cmd
       (described_env os p (if truthy err then err else None))
     ∧ outcome (Hook.hook os self (YStr cmd) p err) = inr tt)
  ∧ (∀ cmd, strip cmd = "" →
       Hook.hook os self (YStr cmd) p err = ([], inr tt))
  ∧ Hook.hook os self YNull p err = ([], inr tt).
Proof.
  split; [|split].
  - intros cmd Hne. split.
    + by apply hook_launches.
    + apply (hook_returns os self p (Some cmd)).
  - intros cmd. apply hook_blank.
  - apply hook_None.
Qed.

Lemma hook_environment_witness :
  launches
    (trace (Hook.hook sample_os (Hook.Make (YStr "echo start") YNull YNull)
              (YStr "echo start") docked None))
    "echo start"
    (<["randr_profile" := "docked"]> {["HOME" := "/home/u"]})
  ∧ Hook.hook sample_os (Hook.Make YNull YNull YNull) (YStr "  ") docked None
    = ([], inr tt).
Proof.
  destruct (hook_environment sample_os
              (Hook.Make (YStr "echo start") YNull YNull) docked None)
    as (Hrun & _ & _).
  destruct (hook_environment sample_os (Hook.Make YNull YNull YNull) docked None)
    as (_ & Hblank & _).
  split.
  - apply (Hrun "echo start"). vm_compute. discriminate.
  - apply (Hblank "  "). reflexivity.
Defined.

(** C4 as worded fails for an error that is the empty string: it is
    given, and [randr_error] is not bound to it. *)
Lemma hook_empty_error_not_bound :
  ¬ launches
      (trace (Hook.hook sample_os (Hook.Make YNull YNull (YStr "echo fail"))
                (YStr "echo fail") docked (Some "")))
      "echo fail" (described_env sample_os docked (Some "")).
Proof.
  intros (log & Heq & _).
  apply (f_equal (fun t : list event =>
                    match t with
                    | _ :: EvPopen _ env :: _ => env !! "randr_error"
                    | _ => None
                    end)) in Heq.
  vm_compute in Heq. discriminate.
Qed.

(** ** ProfileMatcher *)

Section Matcher.
Import ProfileMatcher.
Variable connected : list XrandrConnection.t.

Lemma weight_nonneg rule c : (0 ≤ weight rule c)%Z.
Proof.
  unfold weight. destruct rule as [[[e|] [s|] [m|]]|]; simpl;
    repeat case_match; lia.
Qed.

Lemma find_named_None n :
  List.find (named n) connected = None
  ↔ ∀ c, In c connected → XrandrConnection.name c ≠ n.
Proof.
  unfold named. induction connected as [|c l IH]; simpl.
  - split; [tauto | done].
  - destruct (String.eqb_spec (XrandrConnection.name c) n) as [Heq|Hne].
    + split; [done|]. intros H. destruct (H c); auto.
    + rewrite IH. split.
      * intros H c' [<-|Hin]; auto.
      * intros H c' Hin. apply H. auto.
Qed.

Lemma score_outputs_nonneg p os z :
  score_outputs p os connected = Some z → (0 ≤ z)%Z.
Proof.
  revert z. induction os as [|o os IH]; simpl; intros z H.
  - by inversion H.
  - destruct (List.find _ connected) as [c|]; [|done].
    destruct (score_outputs p os connected) as [z'|]; [|done].
    inversion H; subst. pose proof (weight_nonneg (rule_of p (Output.name o)) c).
    pose proof (IH z' eq_refl). lia.
Qed.

Lemma score_outputs_None p os :
  score_outputs p os connected = None
  ↔ ∃ o, In o os ∧ ∀ c, In c connected → XrandrConnection.name c ≠ Output.name o.
Proof.
  induction os as [|o os IH]; simpl.
  - split; [done | by intros (o & [] & _)].
  - destruct (List.find _ connected) as [c|] eqn:Hfind.
    + destruct (score_outputs p os connected) as [z|].
      * split; [done|]. intros (o' & [<-|Hin] & Hno).
        -- apply find_named_None in Hno. congruence.
        -- assert (Some z = None) by (apply IH; eauto). done.
      * split; [|done]. intros _.
        destruct IH as [IH _]. destruct (IH eq_refl) as (o' & Hin & Hno). eauto.
    + split; [|done]. intros _. exists o. split; [auto|].
      by apply find_named_None.
Qed.

Lemma eligible_iff p :
  (floor <? score p connected)%Z = false ↔ disqualified p connected.
Proof.
  unfold score, disqualified. rewrite <- (score_outputs_None p).
  destruct (score_outputs p (Profile.outputs p) connected) as [z|] eqn:Hs.
  - apply score_outputs_nonneg in Hs. unfold floor.
    split; [intros H; apply Z.ltb_ge in H; lia | done].
  - done.
Qed.

Lemma In_place r x l : In x (place r l) ↔ x = r ∨ In x l.
Proof.
  induction l as [|y l IH]; simpl.
  - intuition.
  - destruct (outranks r y); simpl; [intuition | rewrite IH; intuition].
Qed.

Lemma In_sorted x l : In x (sorted l) ↔ In x l.
Proof.
  unfold sorted. induction l as [|y l IH]; simpl; [done|].
  rewrite In_place, IH. intuition.
Qed.

Lemma sorted_nil l : sorted l = [] ↔ l = [].
Proof.
  split; [|by intros ->].
  destruct l as [|y l]; [done|]. intros H.
  assert (In y (sorted (y :: l))) as Hin by (apply In_sorted; simpl; auto).
  rewrite H in Hin. destruct Hin.
Qed.

Lemma filter_nil {A} (f : A → bool) (l : list A) :
  List.filter f l = [] ↔ Forall (λ x, f x = false) l.
Proof.
  induction l as [|x l IH]; simpl.
  - split; [constructor | done].
  - destruct (f x) eqn:Hx.
    + split; [done | inversion 1; congruence].
    + rewrite IH. split; [by constructor | by inversion 1].
Qed.

Lemma find_best_None_match profiles :
  find_best profiles connected = None ↔ match_ profiles connected = [].
Proof.
  unfold find_best.
  destruct (match_ profiles connected) as [|[s p] l] eqn:Hm; [done|].
  assert (In (s, p) (match_ profiles connected)) as Hin
    by (rewrite Hm; simpl; auto).
  unfold match_ in Hin. apply In_sorted, filter_In in Hin as [_ Hs].
  simpl in Hs. by rewrite Hs.
Qed.

(** C1: [find_best] returns none exactly when every profile names an
    output that is not among the connected ones; for the empty list of
    profiles it returns none. *)
Theorem find_best_none_iff_all_disqualified (profiles : list Profile.t) :
  (find_best profiles connected = None
   ↔ Forall (λ p, disqualified p connected) profiles)
  ∧ find_best [] connected = None.
Proof.
  split; [|reflexivity].
  rewrite find_best_None_match. unfold match_.
  rewrite sorted_nil, filter_nil, Forall_map. simpl.
  apply Forall_iff. intros p. apply eligible_iff.
Qed.

End Matcher.

Lemma find_best_none_iff_all_disqualified_witness :
  ProfileMatcher.find_best [office; laptop] [panel] = Some laptop
  ∧ ProfileMatcher.find_best [office] [panel; hdmi] = None.
Proof.
  split; [reflexivity|].
  destruct (find_best_none_iff_all_disqualified [panel; hdmi] [office])
    as [[_ Hnone] _].
  apply Hnone. constructor; [|constructor].
  exists (Output.Make "DP-1" "2560x1440" "0x0" "normal" (Some 60%Z) true).
  split; [simpl; auto|].
  intros c [<-|[<-|[]]]; discriminate.
Defined.

(** ** RandrCtl *)

Lemma bind_assoc {A B C} (m : M A) (f : A → M B) (g : B → M C) :
  ((m ≫= f) ≫= g) = (m ≫= λ a, f a ≫= g).
Proof.
  unfold mbind, M_bind, bind. destruct m as [t [e|a]]; [done|].
  destruct (f a) as [t' [e'|b]]; [done|].
  destruct (g b) as [t'' r]. by rewrite app_assoc.
Qed.

Lemma bind_ext {A B} (m : M A) (f g : A → M B) :
  (∀ a, f a = g a) → (m ≫= f) = (m ≫= g).
Proof.
  intros H. unfold mbind, M_bind, bind. destruct m as [t [e|a]]; [done|].
  by rewrite H.
Qed.

(** C7: when the profiles are read, the connected outputs are obtained and
    [find_best] finds none, [switch_auto] logs a warning and returns
    normally; nothing else happens after the two reads, and the run does
    not depend on the [apply] of the controller, which is never called. *)
Theorem switch_auto_no_match (self : RandrCtl.t) t1 profiles t2 outputs :
  ProfileManager.read_all (RandrCtl.profile_manager self) = (t1, inr profiles) →
  Xrandr.get_connected_outputs (RandrCtl.xrandr self) = (t2, inr outputs) →
  ProfileMatcher.find_best profiles outputs = None →
  RandrCtl.switch_auto self
  = (t1 ++ t2 ++ [EvLog WARNING "No matching profile found" []], inr tt)
  ∧ ∀ apply',
      RandrCtl.switch_auto
        (RandrCtl.Make (RandrCtl.profile_manager self)
           (Xrandr.Make apply'
              (Xrandr.get_connected_outputs (RandrCtl.xrandr self))))
      = RandrCtl.switch_auto self.
Proof.
  intros Hread Hconn Hnone.
  assert (∀ x, ProfileManager.read_all (RandrCtl.profile_manager self)
               = (t1, inr profiles) →
               Xrandr.get_connected_outputs x = (t2, inr outputs) →
               RandrCtl.switch_auto
                 (RandrCtl.Make (RandrCtl.profile_manager self) x)
               = (t1 ++ t2 ++ [EvLog WARNING "No matching profile found" []],
                  inr tt)) as Hrun.
  { intros x Hr Hc. unfold RandrCtl.switch_auto. simpl.
    rewrite Hr, Hc. unfold mbind, M_bind, bind. simpl. by rewrite Hnone. }
  split.
  - destruct self as [pm x]. by apply Hrun.
  - intros apply'. rewrite Hrun by done.
    destruct self as [pm x]. symmetry. by apply Hrun.
Qed.

Lemma switch_auto_no_match_witness :
  RandrCtl.switch_auto
    (RandrCtl.Make (sample_manager [office] docked)
       (Xrandr.new (fun _ => None) [panel; hdmi]))
  = ([EvLog WARNING "No matching profile found" []], inr tt).
Proof.
  refine (proj1 (switch_auto_no_match
                   (RandrCtl.Make (sample_manager [office] docked)
                      (Xrandr.new (fun _ => None) [panel; hdmi]))
                   [] [office] [] [panel; hdmi] _ _ _)); reflexivity.
Defined.

Section DumpCurrent.
Variables (self : RandrCtl.t) (name : string) (to_file : bool).
Variables (include_supports_rule include_preferred_rule include_edid_rule : bool).
Variables (priority : Z) (json_compatible : bool).

(** Where [dump_current] hands the profile in the end. *)
Let output (profile : Profile.t) : M unit :=
  if to_file
  then ProfileManager.write (RandrCtl.profile_manager self) profile
         json_compatible
  else ProfileManager.print (RandrCtl.profile_manager self) profile
         json_compatible.

Let without_rate (profile : Profile.t) : Profile.t :=
  RandrCtl.set_outputs (map RandrCtl.clear_rate (Profile.outputs profile))
    profile.

(** C9: with and without the refresh rate, [dump_current] builds the same
    profile (or fails the same way) and hands it to the same method of the
    profile manager; without, every output of the profile handed over has
    no rate, and all its other fields, like the name, the rules and the
    priority of the profile, are those of the profile with the rate. *)
Theorem dump_current_without_refresh_rate :
  (∃ produced : M Profile.t,
     RandrCtl.dump_current self name to_file include_supports_rule
       include_preferred_rule include_edid_rule true priority json_compatible
     = (profile ← produced; output profile)
     ∧ RandrCtl.dump_current self name to_file include_supports_rule
         include_preferred_rule include_edid_rule false priority
         json_compatible
       = (profile ← produced; output (without_rate profile)))
  ∧ ∀ profile,
      Profile.name (without_rate profile) = Profile.name profile
      ∧ Profile.rules (without_rate profile) = Profile.rules profile
      ∧ Profile.priority (without_rate profile) = Profile.priority profile
      ∧ Forall2
          (λ o o', Output.rate o' = None
                   ∧ Output.name o' = Output.name o
                   ∧ Output.mode o' = Output.mode o
                   ∧ Output.pos o' = Output.pos o
                   ∧ Output.rotate o' = Output.rotate o
                   ∧ Output.primary o' = Output.primary o)
          (Profile.outputs profile) (Profile.outputs (without_rate profile)).
Proof.
  split.
  - eexists (xrandr_connections ←
               Xrandr.get_connected_outputs (RandrCtl.xrandr self);
             profile ← ProfileManager.profile_from_xrandr
                         (RandrCtl.profile_manager self) xrandr_connections name;
             _).
    unfold RandrCtl.dump_current.
    split; rewrite bind_assoc; apply bind_ext; intros conns;
      rewrite bind_assoc; apply bind_ext; intros profile; reflexivity.
  - intros profile. repeat split.
    simpl. induction (Profile.outputs profile) as [|o os IH]; simpl.
    + constructor.
    + constructor; [by repeat split | exact IH].
Qed.

End DumpCurrent.

(** ** CtlFactory.ensure_homes *)

Section EnsureHomes.
Import CtlFactory.
Variables (fs : FS.t) (first : string) (others : list string).

Let candidates := first :: others.
Let self := CtlFactory.Make first candidates.

Lemma new_candidates : CtlFactory.new candidates = ret self.
Proof. reflexivity. Qed.

Lemma filter_length_0 {A} (f : A → bool) (l : list A) :
  (length (List.filter f l) =? 0)%nat = true ↔ ∀ x, In x l → f x = false.
Proof.
  rewrite Nat.eqb_eq, length_zero_iff_nil, filter_nil, List.Forall_forall.
  reflexivity.
Qed.

Lemma count_first_0 :
  (count first (List.filter (is_valid_home fs) candidates) =? 0)%nat
  = negb (is_valid_home fs first).
Proof.
  unfold count, candidates. simpl.
  destruct (is_valid_home fs first) eqn:Hv; simpl.
  - by rewrite String.eqb_refl.
  - apply filter_length_0. intros x Hin.
    apply filter_In in Hin as [_ Hx].
    destruct (String.eqb_spec first x) as [Heq|]; [|done].
    rewrite <- Heq in Hx. congruence.
Qed.

Lemma created_isdir path : isdir (created fs path) path = true.
Proof.
  unfold isdir, created. simpl. apply bool_decide_eq_true. set_solver.
Qed.

(** C6, as the code has it: for the candidates [first :: others].  If one
    of them is valid, [ensure_homes] keeps exactly the valid ones, in their
    order, touches no directory, and warns once about the preferred home
    if that one is not valid.  If none is valid and [os.makedirs] does not
    raise for the profiles directory of the first candidate, that
    directory is created, the first candidate is valid from then on and is
    kept alone; if [os.makedirs] raises, its error is the result and the
    homes are not assigned. *)
Theorem ensure_homes_valid_or_created :
  ((∃ home, In home candidates ∧ is_valid_home fs home = true) →
     ensure_homes fs self
     = ((if is_valid_home fs first then []
         else [EvLog WARNING
                 "No home directory found under preferred location %s"
                 [ArgStr first]])
        ++ [EvLog INFO "Using %s as home directories"
              [ArgList (List.filter (is_valid_home fs) candidates)]],
        inr (CtlFactory.Make first (List.filter (is_valid_home fs) candidates),
             fs)))
  ∧ ((∀ home, In home candidates → is_valid_home fs home = false) →
       let profiles := path_join first profile_dir in
       (makedirs_error fs profiles = None →
          ensure_homes fs self
          = ([EvLog WARNING "No home directories found among %s"
                [ArgList candidates];
              EvLog WARNING "Creating home under %s" [ArgStr first];
              EvLog INFO "Using %s as home directories" [ArgList [first]]],
             inr (CtlFactory.Make first [first], created fs profiles))
          ∧ is_valid_home (created fs profiles) first = true)
       ∧ (∀ e, makedirs_error fs profiles = Some e →
            ensure_homes fs self
            = ([EvLog WARNING "No home directories found among %s"
                  [ArgList candidates];
                EvLog WARNING "Creating home under %s" [ArgStr first]],
               inl e))).
Proof.
  split.
  - intros (home & Hin & Hvalid).
    unfold ensure_homes. simpl homes. simpl preferred_home.
    destruct (length (List.filter (is_valid_home fs) candidates) =? 0)%nat
      eqn:Hlen.
    { rewrite (proj1 (filter_length_0 _ _) Hlen home Hin) in Hvalid. done. }
    rewrite count_first_0.
    by destruct (is_valid_home fs first).
  - intros Hnone profiles.
    assert (isdir fs profiles = false) as Hdir
      by (apply (Hnone first); simpl; auto).
    split.
    + intros Hok. split; [|apply created_isdir].
      unfold ensure_homes. simpl homes. simpl preferred_home.
      rewrite (proj2 (filter_length_0 _ _) Hnone).
      unfold init_home, makedirs. fold profiles. by rewrite Hok, Hdir.
    + intros e He.
      unfold ensure_homes. simpl homes. simpl preferred_home.
      rewrite (proj2 (filter_length_0 _ _) Hnone).
      unfold init_home, makedirs. fold profiles. by rewrite He.
Qed.

End EnsureHomes.

Lemma ensure_homes_valid_or_created_witness :
  CtlFactory.ensure_homes
    (FS.Make {["/etc/randrctl/profiles"]} ∅)
    (CtlFactory.Make "/home/u/.local/randrctl"
       ["/home/u/.local/randrctl"; "/etc/randrctl"])
  = ([EvLog WARNING "No home directory found under preferred location %s"
        [ArgStr "/home/u/.local/randrctl"];
      EvLog INFO "Using %s as home directories" [ArgList ["/etc/randrctl"]]],
     inr (CtlFactory.Make "/home/u/.local/randrctl" ["/etc/randrctl"],
          FS.Make {["/etc/randrctl/profiles"]} ∅))
  ∧ CtlFactory.is_valid_home
      (created (FS.Make ∅ ∅)
         (path_join "/home/u/.local/randrctl" CtlFactory.profile_dir))
      "/home/u/.local/randrctl" = true
  ∧ outcome (CtlFactory.ensure_homes profiles_is_a_file
               (CtlFactory.Make "/home/u/.local/randrctl"
                  ["/home/u/.local/randrctl"; "/etc/randrctl"]))
    = inl (FileExistsError "/home/u/.local/randrctl/profiles").
Proof.
  split; [|split].
  - refine (proj1 (ensure_homes_valid_or_created
                     (FS.Make {["/etc/randrctl/profiles"]} ∅)
                     "/home/u/.local/randrctl" ["/etc/randrctl"]) _).
    exists "/etc/randrctl". split; [simpl; auto | reflexivity].
  - destruct (ensure_homes_valid_or_created (FS.Make ∅ ∅)
                "/home/u/.local/randrctl" ["/etc/randrctl"]) as [_ Hnone].
    destruct Hnone as [Hcreated _].
    { intros home [<-|[<-|[]]]; reflexivity. }
    apply Hcreated. reflexivity.
  - destruct (ensure_homes_valid_or_created profiles_is_a_file
                "/home/u/.local/randrctl" ["/etc/randrctl"]) as [_ Hnone].
    destruct Hnone as [_ Hraises].
    { intros home [<-|[<-|[]]]; reflexivity. }
    rewrite (Hraises (FileExistsError "/home/u/.local/randrctl/profiles"));
      reflexivity.
Defined.

(** C6 as worded fails when the profiles path of the first candidate is a
    regular file: no candidate is valid, and [ensure_homes] raises the
    [FileExistsError] of [os.makedirs] instead of yielding a list. *)
Lemma ensure_homes_profiles_is_a_file :
  (∀ home, In home ["/home/u/.local/randrctl"; "/etc/randrctl"] →
     CtlFactory.is_valid_home profiles_is_a_file home = false)
  ∧ ¬ ∃ t homes fs',
        CtlFactory.ensure_homes profiles_is_a_file
          (CtlFactory.Make "/home/u/.local/randrctl"
             ["/home/u/.local/randrctl"; "/etc/randrctl"])
        = (t, inr (homes, fs')).
Proof.
  split.
  - intros home [<-|[<-|[]]]; reflexivity.
  - intros (t & homes & fs' & Heq).
    apply (f_equal (λ m : M (CtlFactory.t * FS.t),
                      match outcome m with inl _ => false | inr _ => true end))
      in Heq.
    vm_compute in Heq. discriminate.
Qed.

(** ** CtlFactory: the configuration *)


Section Config.
Import CtlFactory.
Variable fs : FS.t.

(** What the loop body does with a malformed file and with a mapping. *)
Lemma load_file_malformed f msg c :
  FS.files fs !! f = Some (Malformed msg) →
  load_file fs f c
  = ([EvLog ERROR "error reading configuration file %s" [ArgStr f]], inr c).
Proof. intros H. unfold load_file, yaml_load. by rewrite H. Qed.

Lemma load_file_mapping f m c :
  FS.files fs !! f = Some (Document (YMap m)) →
  load_file fs f c
  = ([EvLog DEBUG "read configuration from %s" [ArgStr f]], inr (m ∪ c)).
Proof. intros H. unfold load_file, yaml_load. by rewrite H. Qed.

Lemma value_in_files_app l1 l2 key :
  value_in_files fs (l1 ++ l2) key
  = match value_in_files fs l1 key with
    | Some v => Some v
    | None => value_in_files fs l2 key
    end.
Proof.
  induction l1 as [|f l1 IH]; simpl; [done|].
  destruct (FS.files fs !! f) as [[msg|[| | | |m]|msg]|]; try apply IH.
  destruct (m !! key); [done | apply IH].
Qed.

Lemma value_in_files_isfile l key :
  value_in_files fs (List.filter (isfile fs) l) key = value_in_files fs l key.
Proof.
  induction l as [|f l IH]; simpl; [done|].
  unfold isfile at 1. destruct (FS.files fs !! f) as [c|] eqn:Hf.
  - rewrite bool_decide_eq_true_2 by eauto. simpl. by rewrite Hf, IH.
  - rewrite bool_decide_eq_false_2 by (by intros [? ?]). exact IH.
Qed.

(** The loop over files that are all malformed or mappings ends with a
    configuration, in which a key has the value of the last file that
    defines it, or else the value it had before. *)
Lemma load_config_like files c :
  Forall (λ f, ∃ x, FS.files fs !! f = Some x ∧ config_like x) files →
  ∃ t cfg,
    load fs files c = (t, inr cfg)
    ∧ ∀ key, cfg !! key
             = match value_in_files fs (rev files) key with
               | Some v => Some v
               | None => c !! key
               end.
Proof.
  intros Hall. revert c.
  induction Hall as [|f files (x & Hf & Hx) _ IH]; intros c; simpl.
  - by exists [], c.
  - assert (∃ t c', load_file fs f c = (t, inr c')
              ∧ ∀ key, c' !! key = match value_in_files fs [f] key with
                                   | Some v => Some v
                                   | None => c !! key
                                   end) as (t & c' & Hstep & Hc').
    { simpl. rewrite Hf. destruct x as [msg|[| | | |m]|msg]; try done.
      - eexists _, c. split; [by apply (load_file_malformed f msg) | done].
      - eexists _, (m ∪ c). split; [by apply load_file_mapping|].
        intros key. rewrite lookup_union.
        destruct (m !! key), (c !! key); done. }
    destruct (IH c') as (t' & cfg & Hload & Hcfg).
    exists (t ++ t'), cfg. split.
    + by rewrite (bind_value _ _ t c' Hstep), Hload.
    + intros key. rewrite Hcfg, value_in_files_app, Hc'.
      by destruct (value_in_files fs (rev files) key).
Qed.

Lemma configs_config_like self :
  (∀ home c, In home (homes self) →
     FS.files fs !! path_join home config_name = Some c → config_like c) →
  Forall (λ f, ∃ x, FS.files fs !! f = Some x ∧ config_like x)
    (rev (_configs fs self)).
Proof.
  intros Hlike. apply List.Forall_forall. intros f Hin.
  apply in_rev, filter_In in Hin as [Hin Hfile].
  apply in_map_iff in Hin as (home & <- & Hhome).
  apply bool_decide_eq_true in Hfile as [x Hx]. eauto.
Qed.

Lemma read_config_lookup self :
  (∀ home c, In home (homes self) →
     FS.files fs !! path_join home config_name = Some c → config_like c) →
  ∃ t cfg,
    read_config fs self = (t, inr cfg)
    ∧ ∀ key, cfg !! key = value_in_files fs (_configs fs self) key.
Proof.
  intros Hlike. unfold read_config.
  destruct (load_config_like _ ∅ (configs_config_like self Hlike))
    as (t & cfg & Hload & Hcfg).
  exists t, cfg. split; [done|]. intros key.
  rewrite Hcfg, rev_involutive, lookup_empty.
  by destruct (value_in_files _ _ _).
Qed.

(** C5: when every config file of the homes is malformed or holds a
    mapping, the configuration is read, and each top-level key has in it
    exactly the value it has in the config file of the most preferred home
    that defines it (and is absent if no home defines it): the whole
    value, not a combination with the values of other homes. *)
Theorem read_config_preferred_value (self : CtlFactory.t) :
  (∀ home c, In home (homes self) →
     FS.files fs !! path_join home config_name = Some c → config_like c) →
  ∃ t cfg,
    read_config fs self = (t, inr cfg)
    ∧ ∀ key, cfg !! key = preferred_value fs (homes self) key.
Proof.
  intros Hlike.
  destruct (read_config_lookup self Hlike) as (t & cfg & Hload & Hcfg).
  exists t, cfg. split; [done|]. intros key.
  rewrite Hcfg. unfold _configs, preferred_value.
  apply value_in_files_isfile.
Qed.

Section Malformed.
Variables (bad msg : string).
Hypothesis Hbad : FS.files fs !! bad = Some (Malformed msg).

Let others (f : string) : bool := negb (String.eqb f bad).








End Malformed.

End Config.

Lemma read_config_preferred_value_witness :
  ∃ t cfg,
    CtlFactory.read_config two_configs two_homes = (t, inr cfg)
    ∧ cfg !! "hooks"
      = Some (YMap {["post_switch" := YStr "notify-send done"]})
    ∧ cfg !! "colors" = None.
Proof.
  destruct (read_config_preferred_value two_configs two_homes)
    as (t & cfg & Hread & Hcfg).
  { intros home c [<-|[<-|[]]] Hc; vm_compute in Hc;
      injection Hc as <-; exact I. }
  exists t, cfg. split; [exact Hread|].
  rewrite !Hcfg. split; reflexivity.
Defined.



(** C10: [_config_safe] returns [None] for a section that is absent, and
    raises an [AttributeError] for a section whose value is not a mapping,
    such as [None]; [get_randrctl] then fails with that error once the
    configuration is read, rather than leaving the hooks unset. *)
Theorem config_safe_absent_or_not_mapping (config : gmap string yaml)
    (section property : string) :
  (config !! section = None →
     CtlFactory._config_safe config section property = ret YNull)
  ∧ (∀ v, config !! section = Some v → (∀ m, v ≠ YMap m) →
       CtlFactory._config_safe config section property
       = raise (AttributeError v "get"))
  ∧ (∀ rt fs self t v,
       CtlFactory.read_config fs self = (t, inr config) →
       config !! "hooks" = Some v → (∀ m, v ≠ YMap m) →
       CtlFactory.get_randrctl rt fs self = (t, inl (AttributeError v "get"))).
Proof.
  assert (∀ s q v, config !! s = Some v → (∀ m, v ≠ YMap m) →
            CtlFactory._config_safe config s q = raise (AttributeError v "get"))
    as Hraise.
  { intros s q v Hv Hnot. unfold CtlFactory._config_safe. rewrite Hv.
    destruct v as [| | | |m]; try reflexivity. by destruct (Hnot m). }
  split; [|split].
  - intros Habsent. unfold CtlFactory._config_safe. by rewrite Habsent.
  - apply Hraise.
  - intros rt fs self t v Hread Hv Hnot. unfold CtlFactory.get_randrctl.
    rewrite (bind_value _ _ t config Hread).
    rewrite (Hraise "hooks" "prior_switch" v Hv Hnot). simpl.
    by rewrite app_nil_r.
Qed.

Lemma config_safe_absent_or_not_mapping_witness :
  CtlFactory._config_safe ∅ "hooks" "prior_switch" = ret YNull
  ∧ CtlFactory.get_randrctl sample_runtime empty_hooks
      (CtlFactory.Make "/etc/randrctl" ["/etc/randrctl"])
    = ([EvLog DEBUG "read configuration from %s"
          [ArgStr "/etc/randrctl/config.yaml"]],
       inl (Exn "AttributeError" "'NoneType' object has no attribute 'get'")).
Proof.
  split.
  - apply (config_safe_absent_or_not_mapping ∅ "hooks" "prior_switch").
    reflexivity.
  - apply (proj2 (proj2 (config_safe_absent_or_not_mapping
                           {["hooks" := YNull]} "hooks" "prior_switch"))
             sample_runtime empty_hooks
             (CtlFactory.Make "/etc/randrctl" ["/etc/randrctl"]) _ YNull);
      [reflexivity | reflexivity | discriminate].
Defined.

(** ** Runs on the sample data *)

(** Two profiles of which only [laptop] has all its outputs connected. *)
Example find_best_laptop :
  ProfileMatcher.find_best [office; laptop] [panel] = Some laptop.
Proof. reflexivity. Qed.

(** A dump without refresh rates and without EDID rules, printed. *)
Example dump_current_sample :
  RandrCtl.dump_current
    (RandrCtl.Make (sample_manager [] docked) working_xrandr)
    "now" false true true false false 10 false
  = ([EvPrint
        (Profile.Make "now"
           [Output.Make "DP-1" "1920x1080" "0x0" "normal" None true;
            Output.Make "eDP-1" "1366x768" "1920x0" "normal" None false]
           (Some {["DP-1" := Rule.Make None None None]}) 10)
        false],
     inr tt).
Proof. reflexivity. Qed.

(** A hook command that is not a string has no [strip]: the error is
    raised before the controller is called, and raised again after the
    post-fail hook. *)
Example apply_hook_command_not_a_string :
  Hook.apply_hook sample_os (Hook.Make (YInt 5) YNull (YStr "echo fail"))
    (Xrandr.apply working_xrandr) docked
  = ([EvLog DEBUG "Calling '%s'" [ArgStr "echo fail"];
      EvPopen "echo fail"
        (described_env sample_os docked
           (Some "'int' object has no attribute 'strip'"))],
     inl (Exn "AttributeError" "'int' object has no attribute 'strip'")).
Proof. reflexivity. Qed.

(** An empty config file is loaded as [None], which [dict.update]
    rejects: the error is not a [yaml.YAMLError] and leaves the loop. *)
Example read_config_empty_file :
  CtlFactory.read_config
    (FS.Make {["/etc/randrctl/profiles"]}
       {["/etc/randrctl/config.yaml" := Document YNull]})
    (CtlFactory.Make "/etc/randrctl" ["/etc/randrctl"])
  = ([], inl (Exn "TypeError" "'NoneType' object is not iterable")).
Proof. reflexivity. Qed.

(** The hooks of the preferred home replace those of the other home, and
    the facade is built with the decorated controller. *)
Example get_randrctl_two_configs :
  ∃ t rc,
    CtlFactory.get_randrctl sample_runtime two_configs two_homes = (t, inr rc)
    ∧ Xrandr.apply (RandrCtl.xrandr rc) docked
      = ([EvXrandrApply docked;
          EvLog DEBUG "Calling '%s'" [ArgStr "notify-send done"];
          EvPopen "notify-send done" (described_env sample_os docked None)],
         inr tt).
Proof. eexists _, _. split; reflexivity. Qed.

(** * Further properties of the code *)

(** ** Hook.hook *)

(** X1: a hook whose command is a string does nothing exactly when the
    command consists of whitespace only. *)
Theorem hook_skipped_iff_whitespace (os : OS.t) (self : Hook.t)
    (p : Profile.t) (cmd : string) (err : option string) :
  Hook.hook os self (YStr cmd) p err = ([], inr tt)
  ↔ Forall (λ a, py_isspace a = true) (list_ascii_of_string cmd).
Proof.
  rewrite <- strip_blank. split.
  - intros Hrun. destruct (string_dec (strip cmd) "") as [|Hne]; [done|].
    rewrite hook_launch in Hrun by done. discriminate.
  - apply hook_blank.
Qed.

(** X2: every [Popen] call of a hook run is for the command of the hook,
    with [randr_profile] bound to the name of the profile, and with every
    variable other than [randr_profile] and [randr_error] as in the
    environment of the process; when no error is given, [randr_error] too
    is as inherited. *)
Theorem hook_env_frame (os : OS.t) (self : Hook.t) (p : Profile.t)
    (cmd : string) (err : option string) c env :
  In (EvPopen c env) (trace (Hook.hook os self (YStr cmd) p err)) →
  c = cmd
  ∧ env !! "randr_profile" = Some (Profile.name p)
  ∧ (∀ k, k ≠ "randr_profile" → k ≠ "randr_error" →
       env !! k = OS.environ os !! k)
  ∧ (err = None → env !! "randr_error" = OS.environ os !! "randr_error").
Proof.
  destruct (string_dec (strip cmd) "") as [Hb|Hne].
  { rewrite hook_blank by done. intros []. }
  rewrite hook_launch by done. simpl.
  intros [Hin|[Hin|Hin]]; [discriminate| |].
  2:{ destruct (OS.popen_raises _ _ _); simpl in Hin;
        [destruct Hin as [Hin|[]]; discriminate | destruct Hin]. }
  injection Hin as <- <-. split; [done|].
  unfold described_env. destruct err as [e|]; simpl.
  - destruct (negb (e =? "")%string); repeat split; try done.
    + by rewrite lookup_insert_ne, lookup_insert_eq.
    + intros k H1 H2. by rewrite !lookup_insert_ne.
    + apply lookup_insert_eq.
    + intros k H1 H2. by rewrite lookup_insert_ne.
  - repeat split.
    + apply lookup_insert_eq.
    + intros k H1 H2. by rewrite lookup_insert_ne.
    + intros _. by rewrite lookup_insert_ne.
Qed.

Lemma hook_env_frame_witness :
  In (EvPopen "echo start"
        (<["randr_profile" := "docked"]> {["HOME" := "/home/u"]}))
    (trace (Hook.hook sample_os (Hook.Make YNull YNull YNull)
              (YStr "echo start") docked None))
  ∧ (<["randr_profile" := "docked"]> {["HOME" := "/home/u"]}
       : gmap string string) !! "HOME"
    = OS.environ sample_os !! "HOME".
Proof.
  assert (In (EvPopen "echo start"
                (<["randr_profile" := "docked"]> {["HOME" := "/home/u"]}))
            (trace (Hook.hook sample_os (Hook.Make YNull YNull YNull)
                      (YStr "echo start") docked None))) as Hin
    by (right; left; reflexivity).
  split; [exact Hin|].
  destruct (hook_env_frame sample_os (Hook.Make YNull YNull YNull) docked
              "echo start" None "echo start" _ Hin) as (_ & _ & Hframe & _).
  apply Hframe; discriminate.
Defined.

(** ** Hook.decorate *)

Lemma launches_in_app t1 t2 :
  launches_in (t1 ++ t2) = (launches_in t1 + launches_in t2)%nat.
Proof. unfold launches_in. by rewrite List.filter_app, length_app. Qed.

Lemma hook_launches_once os self p cmd err :
  (launches_in (trace (Hook.hook os self (of_opt_str cmd) p err)) ≤ 1)%nat.
Proof.
  unfold launches_in.
  destruct cmd as [cmd|]; simpl of_opt_str; [|simpl; lia].
  destruct (string_dec (strip cmd) "") as [Hb|Hne].
  - rewrite hook_blank by done. simpl. lia.
  - rewrite hook_launch by done. simpl.
    destruct (OS.popen_raises _ _ _); simpl; lia.
Qed.

Lemma hook_unset_or_blank os self p cmd err :
  unset_or_blank cmd →
  Hook.hook os self (of_opt_str cmd) p err = ([], inr tt).
Proof.
  intros H. destruct cmd as [cmd|]; [by apply hook_blank | reflexivity].
Qed.

(** X3: the hooked apply launches at most two commands beside what the
    controller itself launches: at most one before the call of the
    controller and at most one after it. *)
Theorem apply_hook_launches_at_most_two (os : OS.t)
    (prior post fail : option string) (do_apply : Profile.t → M unit)
    (p : Profile.t) :
  let self := Hook.Make (of_opt_str prior) (of_opt_str post) (of_opt_str fail) in
  ∃ before after,
    trace (Hook.apply_hook os self do_apply p)
    = before ++ trace (do_apply p) ++ after
    ∧ (launches_in before ≤ 1)%nat
    ∧ (launches_in after ≤ 1)%nat
    ∧ (launches_in (trace (Hook.apply_hook os self do_apply p))
       ≤ 2 + launches_in (trace (do_apply p)))%nat.
Proof.
  intros self.
  pose proof (apply_hook_eq os prior post fail do_apply p) as Heq.
  cbv zeta in Heq. fold self in Heq. rewrite Heq.
  pose proof (hook_launches_once os self p prior None) as Hprior.
  destruct (outcome (do_apply p)) as [e|[]]; simpl trace.
  - pose proof (hook_launches_once os self p fail (Some (str e))) as Hfail.
    eexists _, _. split; [reflexivity|]. rewrite !launches_in_app. lia.
  - pose proof (hook_launches_once os self p post None) as Hpost.
    eexists _, _. split; [reflexivity|]. rewrite !launches_in_app. lia.
Qed.

(** X4: when the three hook commands are unset or blank, the hooked apply
    does exactly what the controller's own apply does. *)
Theorem apply_hook_transparent (os : OS.t) (prior post fail : option string)
    (do_apply : Profile.t → M unit) (p : Profile.t) :
  unset_or_blank prior → unset_or_blank post → unset_or_blank fail →
  Hook.apply_hook os
    (Hook.Make (of_opt_str prior) (of_opt_str post) (of_opt_str fail))
    do_apply p
  = do_apply p.
Proof.
  intros Hprior Hpost Hfail.
  pose proof (apply_hook_eq os prior post fail do_apply p) as Heq.
  cbv zeta in Heq. rewrite Heq.
  rewrite !hook_unset_or_blank by done. simpl.
  destruct (do_apply p) as [t [e|[]]]; simpl.
  - rewrite hook_unset_or_blank by done. simpl. by rewrite app_nil_r.
  - by rewrite app_nil_r.
Qed.

Lemma apply_hook_transparent_witness :
  Hook.apply_hook sample_os (Hook.Make (YStr "  ") YNull (YStr ""))
    (Xrandr.apply (broken_xrandr "boom")) docked
  = Xrandr.apply (broken_xrandr "boom") docked.
Proof.
  apply (apply_hook_transparent sample_os (Some "  ") None (Some ""));
    reflexivity.
Defined.





(** X7: when the post-fail entry is neither unset nor a string and the
    controller raises, the error of the controller is lost: the hooked
    apply raises the [AttributeError] of the post-fail hook instead. *)
Theorem apply_hook_fail_not_a_command (os : OS.t) (prior : option string)
    (post v : yaml) (do_apply : Profile.t → M unit) (p : Profile.t) t e :
  not_a_command v →
  do_apply p = (t, inl e) →
  let self := Hook.Make (of_opt_str prior) post v in
  Hook.apply_hook os self do_apply p
  = (trace (Hook.hook os self (of_opt_str prior) p None) ++ t,
     inl (AttributeError v "strip")).
Proof.
  intros Hv Hraise self. unfold Hook.apply_hook. simpl Hook.prior_switch.
  simpl Hook.post_fail.
  rewrite Hraise, (hook_eta os self p prior).
  unfold try_except, mbind, M_bind, bind, Exception. simpl.
  rewrite (hook_not_a_command os self p v _ Hv). unfold raise.
  by rewrite !app_nil_r.
Qed.

Lemma apply_hook_fail_not_a_command_witness :
  Hook.apply_hook sample_os
    (Hook.Make YNull YNull (YMap {["cmd" := YStr "echo fail"]}))
    (Xrandr.apply (broken_xrandr "boom")) docked
  = ([EvXrandrApply docked],
     inl (Exn "AttributeError" "'dict' object has no attribute 'strip'")).
Proof.
  etrans.
  - apply (apply_hook_fail_not_a_command sample_os None YNull
             (YMap {["cmd" := YStr "echo fail"]})
             (Xrandr.apply (broken_xrandr "boom")) docked
             [EvXrandrApply docked] (Exn "XrandrException" "boom") I eq_refl).
  - reflexivity.
Defined.

(** ** RandrCtl.switch_to and RandrCtl.print *)

(** X8: through a decorated controller, whatever the hook entries are.
    A profile that cannot be read is never applied or printed, and no
    hook is launched for it: the error of the read is the result.  A
    profile that is read is handed to the hooked apply, and [switch_to]
    ends as the hooked apply ends; when the three hook commands are unset
    or strings, that is as the call of the controller ends. *)
Theorem switch_to_hooked (os : OS.t) (h : Hook.t) (pm : ProfileManager.t)
    (x : Xrandr.t) (name : string) :
  let self := RandrCtl.Make pm (Hook.decorate os h x) in
  (∀ t e, ProfileManager.read_one pm name = (t, inl e) →
     RandrCtl.switch_to self name = (t, inl e)
     ∧ ∀ json, RandrCtl.print self name json = (t, inl e))
  ∧ (∀ t p, ProfileManager.read_one pm name = (t, inr p) →
       RandrCtl.switch_to self name
       = (t ++ trace (Hook.apply_hook os h (Xrandr.apply x) p),
          outcome (Hook.apply_hook os h (Xrandr.apply x) p))
       ∧ ∀ prior post fail,
           h = Hook.Make (of_opt_str prior) (of_opt_str post)
                 (of_opt_str fail) →
           outcome (RandrCtl.switch_to self name)
           = outcome (Xrandr.apply x p)).
Proof.
  intros self. split.
  - intros t e Hread. unfold RandrCtl.switch_to, RandrCtl.print. simpl.
    by rewrite Hread.
  - intros t p Hread.
    assert (RandrCtl.switch_to self name
            = (t ++ trace (Hook.apply_hook os h (Xrandr.apply x) p),
               outcome (Hook.apply_hook os h (Xrandr.apply x) p))) as Heq.
    { unfold RandrCtl.switch_to. simpl.
      by rewrite (bind_value _ _ t p Hread). }
    split; [exact Heq|]. intros prior post fail ->. rewrite Heq. simpl.
    pose proof (apply_hook_eq os prior post fail (Xrandr.apply x) p) as Hrun.
    cbv zeta in Hrun. rewrite Hrun.
    by destruct (outcome (Xrandr.apply x p)) as [e|[]].
Qed.

Lemma switch_to_hooked_witness :
  RandrCtl.switch_to
    (RandrCtl.Make (sample_manager [office; laptop] docked)
       (Hook.decorate sample_os
          (Hook.Make (YStr "echo start") YNull (YStr "echo fail"))
          working_xrandr))
    "beamer"
  = ([], inl (Exn "NoSuchProfile" "beamer"))
  ∧ RandrCtl.switch_to
      (RandrCtl.Make (sample_manager [office; laptop] docked)
         (Hook.decorate sample_os
            (Hook.Make (YStr "echo start") YNull (YStr "echo fail"))
            working_xrandr))
      "laptop"
    = ([EvLog DEBUG "Calling '%s'" [ArgStr "echo start"];
        EvPopen "echo start" (described_env sample_os laptop None);
        EvXrandrApply laptop],
       inr tt).
Proof.
  destruct (switch_to_hooked sample_os
              (Hook.Make (YStr "echo start") YNull (YStr "echo fail"))
              (sample_manager [office; laptop] docked)
              working_xrandr "beamer") as [Hmissing _].
  destruct (switch_to_hooked sample_os
              (Hook.Make (YStr "echo start") YNull (YStr "echo fail"))
              (sample_manager [office; laptop] docked)
              working_xrandr "laptop") as [_ Hfound].
  split.
  - apply (Hmissing [] (Exn "NoSuchProfile" "beamer") eq_refl).
  - etrans; [apply (Hfound [] laptop eq_refl) | reflexivity].
Defined.

(** ** CtlFactory.ensure_homes, again *)

Section EnsureHomesState.
Import CtlFactory.

Lemma created_valid fs path : isdir (created fs path) path = true.
Proof.
  unfold isdir, created. simpl. apply bool_decide_eq_true. set_solver.
Qed.

Lemma filter_filter {A} (f : A → bool) (l : list A) :
  List.filter f (List.filter f l) = List.filter f l.
Proof.
  induction l as [|x l IH]; simpl; [done|].
  destruct (f x) eqn:Hx; simpl; [by rewrite Hx, IH | exact IH].
Qed.

(** The file system [os.makedirs] leaves when it returns. *)
Lemma makedirs_returned fs path t fs' :
  makedirs fs path = (t, inr fs') →
  fs' = (if isdir fs path then fs else created fs path)
  ∧ isdir fs' path = true.
Proof.
  unfold makedirs. destruct (makedirs_error fs path); [discriminate|].
  intros [= _ <-]. split; [done|].
  destruct (isdir fs path) eqn:Hdir; [done | apply created_valid].
Qed.

(** The object and the file system [ensure_homes] leaves when it
    returns. *)
Lemma ensure_homes_returned fs self t self' fs' :
  ensure_homes fs self = (t, inr (self', fs')) →
  let valid := List.filter (is_valid_home fs) (homes self) in
  let profiles := path_join (preferred_home self) profile_dir in
  if (length valid =? 0)%nat
  then self' = CtlFactory.Make (preferred_home self) [preferred_home self]
       ∧ fs' = (if isdir fs profiles then fs else created fs profiles)
  else self' = CtlFactory.Make (preferred_home self) valid ∧ fs' = fs.
Proof.
  intros Hret valid profiles. unfold ensure_homes in Hret.
  fold valid in Hret. destruct (length valid =? 0)%nat.
  - unfold init_home in Hret. fold profiles in Hret.
    destruct (makedirs fs profiles) as [tm [e|fsm]] eqn:Hmk;
      [discriminate|].
    apply makedirs_returned in Hmk as [-> _].
    by injection Hret as _ <- <-.
  - destruct (count (preferred_home self) valid =? 0)%nat;
      by injection Hret as _ <- <-.
Qed.

(** X9: whenever [ensure_homes] returns, it leaves at least one home, all
    of them valid, each one a former home or the preferred home; the
    preferred home stays what it was, no file is touched and no directory
    is removed. *)
Theorem ensure_homes_leaves_valid_homes (fs : FS.t) (self : CtlFactory.t)
    t self' fs' :
  ensure_homes fs self = (t, inr (self', fs')) →
  homes self' ≠ []
  ∧ Forall (λ h, is_valid_home fs' h = true) (homes self')
  ∧ (∀ h, In h (homes self') → In h (homes self) ∨ h = preferred_home self)
  ∧ preferred_home self' = preferred_home self
  ∧ FS.files fs' = FS.files fs
  ∧ FS.dirs fs ⊆ FS.dirs fs'.
Proof.
  intros Hret. apply ensure_homes_returned in Hret. cbv zeta in Hret.
  destruct (length _ =? 0)%nat eqn:Hlen; destruct Hret as [-> ->]; simpl.
  - repeat split; try done.
    + constructor; [|constructor]. unfold is_valid_home.
      destruct (isdir fs _) eqn:Hdir; [done | apply created_valid].
    + intros h [<-|[]]. by right.
    + by destruct (isdir fs _).
    + destruct (isdir fs _); simpl; set_solver.
  - repeat split; try done.
    + intros Hnil. rewrite Hnil in Hlen. discriminate.
    + apply List.Forall_forall. intros h Hin. by apply filter_In in Hin as [_ ?].
    + intros h Hin. left. by apply filter_In in Hin as [? _].
Qed.

Lemma ensure_homes_leaves_valid_homes_witness :
  Forall (λ h, is_valid_home
                 (created (FS.Make ∅ ∅)
                    (path_join "/home/u/.local/randrctl" profile_dir)) h
               = true)
    ["/home/u/.local/randrctl"].
Proof.
  apply (ensure_homes_leaves_valid_homes (FS.Make ∅ ∅)
           (CtlFactory.Make "/home/u/.local/randrctl"
              ["/home/u/.local/randrctl"; "/etc/randrctl"])
           [EvLog WARNING "No home directories found among %s"
              [ArgList ["/home/u/.local/randrctl"; "/etc/randrctl"]];
            EvLog WARNING "Creating home under %s"
              [ArgStr "/home/u/.local/randrctl"];
            EvLog INFO "Using %s as home directories"
              [ArgList ["/home/u/.local/randrctl"]]]
           (CtlFactory.Make "/home/u/.local/randrctl"
              ["/home/u/.local/randrctl"])
           (created (FS.Make ∅ ∅)
              (path_join "/home/u/.local/randrctl" profile_dir))).
  reflexivity.
Defined.

(** X10: a second call of [ensure_homes], on what the first one leaves,
    changes neither the homes nor the file system. *)
Theorem ensure_homes_twice (fs : FS.t) (self : CtlFactory.t) t self' fs' :
  ensure_homes fs self = (t, inr (self', fs')) →
  ∃ t', ensure_homes fs' self' = (t', inr (self', fs')).
Proof.
  intros Hfirst. apply ensure_homes_returned in Hfirst. cbv zeta in Hfirst.
  unfold ensure_homes.
  destruct (length (List.filter (is_valid_home fs) (homes self)) =? 0)%nat
    eqn:Hlen; destruct Hfirst as [-> ->]; cbn [homes preferred_home List.filter].
  - assert (is_valid_home
              (if isdir fs (path_join (preferred_home self) profile_dir)
               then fs
               else created fs (path_join (preferred_home self) profile_dir))
              (preferred_home self) = true) as ->.
    { unfold is_valid_home.
      destruct (isdir fs _) eqn:Hdir; [done | apply created_valid]. }
    cbn [length Nat.eqb]. unfold count. simpl.
    rewrite String.eqb_refl. simpl. by eexists.
  - rewrite filter_filter, Hlen.
    destruct (count _ _ =? 0)%nat; by eexists.
Qed.

Lemma ensure_homes_twice_witness :
  ∃ t',
    ensure_homes
      (created (FS.Make ∅ ∅) (path_join "/home/u/.local/randrctl" profile_dir))
      (CtlFactory.Make "/home/u/.local/randrctl" ["/home/u/.local/randrctl"])
    = (t',
       inr (CtlFactory.Make "/home/u/.local/randrctl"
              ["/home/u/.local/randrctl"],
            created (FS.Make ∅ ∅)
              (path_join "/home/u/.local/randrctl" profile_dir))).
Proof.
  apply (ensure_homes_twice (FS.Make ∅ ∅)
           (CtlFactory.Make "/home/u/.local/randrctl"
              ["/home/u/.local/randrctl"; "/etc/randrctl"])
           [EvLog WARNING "No home directories found among %s"
              [ArgList ["/home/u/.local/randrctl"; "/etc/randrctl"]];
            EvLog WARNING "Creating home under %s"
              [ArgStr "/home/u/.local/randrctl"];
            EvLog INFO "Using %s as home directories"
              [ArgList ["/home/u/.local/randrctl"]]]).
  reflexivity.
Defined.

(** X11: when no home is valid and the profiles path of the preferred
    home is a regular file, [ensure_homes] logs its two warnings and
    raises the [FileExistsError] of [os.makedirs]; the homes are not
    assigned. *)
Theorem ensure_homes_fails_on_a_file (fs : FS.t) (self : CtlFactory.t) :
  let profiles := path_join (preferred_home self) profile_dir in
  (∀ home, In home (homes self) → is_valid_home fs home = false) →
  isdir fs profiles = false →
  isfile fs profiles = true →
  ensure_homes fs self
  = ([EvLog WARNING "No home directories found among %s"
        [ArgList (homes self)];
      EvLog WARNING "Creating home under %s" [ArgStr (preferred_home self)]],
     inl (FileExistsError profiles)).
Proof.
  intros profiles Hnone Hdir Hfile. unfold ensure_homes.
  assert (List.filter (is_valid_home fs) (homes self) = []) as ->.
  { apply filter_nil, List.Forall_forall. exact Hnone. }
  simpl. unfold init_home, makedirs, makedirs_error. fold profiles.
  by rewrite Hdir, Hfile.
Qed.

End EnsureHomesState.

Lemma ensure_homes_fails_on_a_file_witness :
  CtlFactory.ensure_homes profiles_is_a_file
    (CtlFactory.Make "/home/u/.local/randrctl"
       ["/home/u/.local/randrctl"; "/etc/randrctl"])
  = ([EvLog WARNING "No home directories found among %s"
        [ArgList ["/home/u/.local/randrctl"; "/etc/randrctl"]];
      EvLog WARNING "Creating home under %s"
        [ArgStr "/home/u/.local/randrctl"]],
     inl (Exn "FileExistsError"
            "[Errno 17] File exists: '/home/u/.local/randrctl/profiles'")).
Proof.
  apply (ensure_homes_fails_on_a_file profiles_is_a_file
           (CtlFactory.Make "/home/u/.local/randrctl"
              ["/home/u/.local/randrctl"; "/etc/randrctl"])).
  - intros home [<-|[<-|[]]]; reflexivity.
  - reflexivity.
  - reflexivity.
Defined.

(** ** CtlFactory.get_randrctl *)

Section Loading.
Import CtlFactory.
Variable fs : FS.t.

(** The loop body returns, with one line in the log, on a loadable file,
    and raises on any other. *)
Lemma load_file_loadable f c :
  file_loadable fs f = true →
  ∃ c', load_file fs f c = ([log_entry fs f], inr c').
Proof.
  unfold file_loadable, log_entry, load_file, yaml_load.
  destruct (FS.files fs !! f) as [[msg|[| | |s|m]|msg]|]; simpl; try done;
    intros Hs; [by eexists | | by eexists].
  apply String.eqb_eq in Hs as ->. by eexists.
Qed.

Lemma load_file_not_loadable f c :
  file_loadable fs f = false → ∃ e, load_file fs f c = ([], inl e).
Proof.
  unfold file_loadable, load_file, yaml_load.
  destruct (FS.files fs !! f) as [[msg|[| | |s|m]|msg]|]; simpl; try done;
    intros Hs; try by eexists.
  unfold update. rewrite Hs. by eexists.
Qed.

Lemma load_returns files c :
  (∀ f, In f files → file_loadable fs f = true) →
  ∃ cfg, load fs files c = (map (log_entry fs) files, inr cfg).
Proof.
  revert c. induction files as [|f files IH]; intros c Hall; simpl.
  - by exists c.
  - destruct (load_file_loadable f c) as [c' Hstep]; [apply Hall; simpl; auto|].
    destruct (IH c') as [cfg Hrest]; [intros; apply Hall; simpl; auto|].
    exists cfg. by rewrite (bind_value _ _ _ _ Hstep), Hrest.
Qed.

Lemma load_returned files c cfg :
  outcome (load fs files c) = inr cfg →
  ∀ f, In f files → file_loadable fs f = true.
Proof.
  revert c. induction files as [|f files IH]; intros c Hret g Hin; simpl in *.
  - destruct Hin.
  - destruct (file_loadable fs f) eqn:Hf.
    + destruct (load_file_loadable f c Hf) as [c' Hstep].
      rewrite (bind_value _ _ _ _ Hstep) in Hret. simpl in Hret.
      destruct Hin as [<-|Hin]; [done | by apply (IH c')].
    + destruct (load_file_not_loadable f c Hf) as [e Hstep].
      rewrite (bind_raises _ _ _ _ Hstep) in Hret. discriminate.
Qed.




(** X13: when the configuration is read, the log has one line for each
    config file, the file of the least preferred home first: an error for
    a file that does not parse, a debug line for any other. *)
Theorem read_config_log (self : CtlFactory.t) cfg :
  outcome (read_config fs self) = inr cfg →
  trace (read_config fs self) = map (log_entry fs) (rev (_configs fs self)).
Proof.
  unfold read_config. intros Hret.
  destruct (load_returns (rev (_configs fs self)) ∅
              (load_returned _ _ _ Hret)) as [cfg' Heq].
  by rewrite Heq.
Qed.

Lemma config_safe_hooks config property :
  (config !! "hooks" = None ∨ ∃ m, config !! "hooks" = Some (YMap m)) →
  _config_safe config "hooks" property = ret (hooks_entry config property).
Proof.
  unfold _config_safe, hooks_entry. by intros [->|[m ->]].
Qed.

(** X14: when no home has a config file, [get_randrctl] logs nothing and
    returns the facade over the profile directories of the homes, with the
    controller as constructed, without hooks. *)
Theorem get_randrctl_without_config (rt : Runtime.t) (self : CtlFactory.t) :
  _configs fs self = [] →
  get_randrctl rt fs self
  = ([], inr (RandrCtl.Make
                (Runtime.ProfileManager_new rt
                   (map (λ x, path_join x profile_dir) (homes self)))
                (Runtime.Xrandr_new rt))).
Proof.
  intros Hnone. unfold get_randrctl, read_config. rewrite Hnone. simpl load.
  rewrite bind_ret_l, !config_safe_hooks by (left; apply lookup_empty).
  rewrite !bind_ret_l. unfold hooks_entry. by rewrite lookup_empty.
Qed.

(** X15: when the configuration is read and its [hooks] section is absent
    or a mapping, [get_randrctl] returns the facade; its controller is
    decorated, with the three entries of the section as they are, exactly
    when one of them is present and not null. *)
Theorem get_randrctl_hooks (rt : Runtime.t) (self : CtlFactory.t) t config :
  read_config fs self = (t, inr config) →
  (config !! "hooks" = None ∨ ∃ m, config !! "hooks" = Some (YMap m)) →
  let prior_switch := hooks_entry config "prior_switch" in
  let post_switch := hooks_entry config "post_switch" in
  let post_fail := hooks_entry config "post_fail" in
  get_randrctl rt fs self
  = (t, inr (RandrCtl.Make
               (Runtime.ProfileManager_new rt
                  (map (λ x, path_join x profile_dir) (homes self)))
               (if is_not_None prior_switch || is_not_None post_switch
                   || is_not_None post_fail
                then Hook.decorate (Runtime.os rt)
                       (Hook.Make prior_switch post_switch post_fail)
                       (Runtime.Xrandr_new rt)
                else Runtime.Xrandr_new rt))).
Proof.
  intros Hread Hhooks a b c. unfold get_randrctl.
  rewrite (bind_value _ _ t config Hread).
  rewrite !config_safe_hooks by done. rewrite !bind_ret_l. simpl.
  by rewrite app_nil_r.
Qed.

End Loading.


Lemma read_config_log_witness :
  trace (CtlFactory.read_config one_malformed two_homes)
  = [EvLog DEBUG "read configuration from %s"
       [ArgStr "/etc/randrctl/config.yaml"];
     EvLog ERROR "error reading configuration file %s"
       [ArgStr "/home/u/.config/randrctl/config.yaml"]].
Proof.
  etrans.
  - eapply (read_config_log one_malformed two_homes). reflexivity.
  - reflexivity.
Defined.

Lemma get_randrctl_without_config_witness :
  CtlFactory.get_randrctl sample_runtime
    (FS.Make {["/etc/randrctl/profiles"]} ∅)
    (CtlFactory.Make "/etc/randrctl" ["/etc/randrctl"])
  = ([], inr (RandrCtl.Make
                (Runtime.ProfileManager_new sample_runtime
                   ["/etc/randrctl/profiles"])
                working_xrandr)).
Proof.
  apply (get_randrctl_without_config (FS.Make {["/etc/randrctl/profiles"]} ∅)
           sample_runtime (CtlFactory.Make "/etc/randrctl" ["/etc/randrctl"])).
  reflexivity.
Defined.

Lemma get_randrctl_hooks_witness :
  ∃ t rc,
    CtlFactory.get_randrctl sample_runtime two_configs two_homes = (t, inr rc).
Proof.
  eexists _, _.
  eapply (get_randrctl_hooks two_configs sample_runtime two_homes).
  - reflexivity.
  - right. eexists. reflexivity.
Defined.

(** ** RandrCtl.dump_current, again *)

Section Dump.
Variables (self : RandrCtl.t) (name : string) (to_file : bool).
Variables (priority : Z) (json_compatible : bool).
Variables (t1 t2 : list event) (connections : list XrandrConnection.t).
Variable profile : Profile.t.
Hypothesis Hconnections :
  Xrandr.get_connected_outputs (RandrCtl.xrandr self) = (t1, inr connections).
Hypothesis Hprofile :
  ProfileManager.profile_from_xrandr (RandrCtl.profile_manager self)
    connections name = (t2, inr profile).

(** The run of [dump_current] after the two reads. *)
Lemma dump_current_after_reads s p e r :
  RandrCtl.dump_current self name to_file s p e r priority json_compatible
  = (t1 ++ t2
     ++ trace
          (profile ←
             (if negb (e || s || p)
              then ret (RandrCtl.set_rules None
                          (RandrCtl.set_priority priority profile))
              else
                match Profile.rules profile with
                | None => raise (AttributeError YNull "items")
                | Some rules =>
                    ret (RandrCtl.set_rules
                           (Some (RandrCtl.dump_rule s p e <$> rules))
                           (RandrCtl.set_priority priority profile))
                end);
           hand_over self to_file
             (if negb r
              then RandrCtl.set_outputs
                     (map RandrCtl.clear_rate (Profile.outputs profile))
                     profile
              else profile) json_compatible),
     outcome
       (profile ←
          (if negb (e || s || p)
           then ret (RandrCtl.set_rules None
                       (RandrCtl.set_priority priority profile))
           else
             match Profile.rules profile with
             | None => raise (AttributeError YNull "items")
             | Some rules =>
                 ret (RandrCtl.set_rules
                        (Some (RandrCtl.dump_rule s p e <$> rules))
                        (RandrCtl.set_priority priority profile))
             end);
        hand_over self to_file
          (if negb r
           then RandrCtl.set_outputs
                  (map RandrCtl.clear_rate (Profile.outputs profile))
                  profile
           else profile) json_compatible)).
Proof.
  unfold RandrCtl.dump_current.
  rewrite (bind_value _ _ t1 connections Hconnections).
  rewrite (bind_value _ _ t2 profile Hprofile). unfold hand_over.
  reflexivity.
Qed.



(** X17: with no rule included, the profile handed over has no rules at
    all, whether or not the profile manager gave any.  With some rule
    included and a profile without rules, [dump_current] raises an
    [AttributeError] after the two reads, and nothing is handed over. *)
Theorem dump_current_without_rules r :
  RandrCtl.dump_current self name to_file false false false r priority
    json_compatible
  = (t1 ++ t2
     ++ trace (hand_over self to_file
                 (Profile.Make (Profile.name profile)
                    (if r then Profile.outputs profile
                     else map RandrCtl.clear_rate (Profile.outputs profile))
                    None priority) json_compatible),
     outcome (hand_over self to_file
                (Profile.Make (Profile.name profile)
                   (if r then Profile.outputs profile
                    else map RandrCtl.clear_rate (Profile.outputs profile))
                   None priority) json_compatible))
  ∧ (∀ s p e,
       e || s || p = true → Profile.rules profile = None →
       RandrCtl.dump_current self name to_file s p e r priority
         json_compatible
       = (t1 ++ t2, inl (AttributeError YNull "items"))).
Proof.
  split.
  - rewrite dump_current_after_reads. simpl negb. cbv iota.
    rewrite bind_ret_l. by destruct r.
  - intros s p e Hsome Hnone. rewrite dump_current_after_reads.
    rewrite Hsome, Hnone. simpl. by rewrite app_nil_r.
Qed.

(** X18: with some rule included, the rules handed over are for the same
    outputs as those of the profile manager, none added and none dropped,
    and each of them keeps exactly the fields that are included; the name
    and the order of the outputs are kept, and the priority is the one
    given. *)
Theorem dump_current_rules_kept s p e r rules :
  e || s || p = true →
  Profile.rules profile = Some rules →
  ∃ rules',
    RandrCtl.dump_current self name to_file s p e r priority json_compatible
    = (t1 ++ t2
       ++ trace (hand_over self to_file
                   (Profile.Make (Profile.name profile)
                      (if r then Profile.outputs profile
                       else map RandrCtl.clear_rate (Profile.outputs profile))
                      (Some rules') priority) json_compatible),
       outcome (hand_over self to_file
                  (Profile.Make (Profile.name profile)
                     (if r then Profile.outputs profile
                      else map RandrCtl.clear_rate (Profile.outputs profile))
                     (Some rules') priority) json_compatible))
    ∧ dom rules' = dom rules
    ∧ ∀ k rule, rules !! k = Some rule →
        rules' !! k
        = Some (Rule.Make (if e then Rule.edid rule else None)
                  (if s then Rule.supports rule else None)
                  (if p then Rule.prefers rule else None)).
Proof.
  intros Hsome Hrules. exists (RandrCtl.dump_rule s p e <$> rules).
  split; [|split].
  - rewrite dump_current_after_reads. rewrite Hsome, Hrules. simpl negb.
    cbv iota. rewrite bind_ret_l. by destruct r.
  - apply dom_fmap_L.
  - intros k rule Hk. rewrite lookup_fmap, Hk. simpl.
    unfold RandrCtl.dump_rule. by destruct e, s, p.
Qed.

End Dump.


Lemma dump_current_without_rules_witness :
  RandrCtl.dump_current
    (RandrCtl.Make
       (sample_manager [] (Profile.Make "bare" (Profile.outputs docked) None 1))
       working_xrandr)
    "now" false true true true true 10 false
  = ([], inl (Exn "AttributeError" "'NoneType' object has no attribute 'items'")).
Proof.
  apply (proj2 (dump_current_without_rules
                  (RandrCtl.Make
                     (sample_manager []
                        (Profile.Make "bare" (Profile.outputs docked) None 1))
                     working_xrandr)
                  "now" false 10 false [] [] []
                  (Profile.Make "now" (Profile.outputs docked) None 1)
                  eq_refl eq_refl true) true true true eq_refl eq_refl).
Defined.

Lemma dump_current_rules_kept_witness :
  ∃ rules',
    RandrCtl.dump_current
      (RandrCtl.Make (sample_manager [] beamer) working_xrandr)
      "now" false true false false true 10 false
    = ([EvPrint
          (Profile.Make "now" (Profile.outputs beamer) (Some rules') 10)
          false],
       inr tt)
    ∧ rules' !! "HDMI-1" = Some (Rule.Make None (Some {["1920x1080"]}) None).
Proof.
  destruct (dump_current_rules_kept
              (RandrCtl.Make (sample_manager [] beamer) working_xrandr)
              "now" false 10 false [] [] []
              (Profile.Make "now" (Profile.outputs beamer)
                 (Profile.rules beamer) (Profile.priority beamer))
              eq_refl eq_refl true false false true
              {["HDMI-1" := Rule.Make (Some "X9") (Some {["1920x1080"]})
                              (Some "1920x1080")]}
              eq_refl eq_refl)
    as (rules' & Hrun & _ & Hkept).
  exists rules'. split.
  - exact Hrun.
  - apply (Hkept "HDMI-1"
             (Rule.Make (Some "X9") (Some {["1920x1080"]}) (Some "1920x1080"))).
    reflexivity.
Defined.

(** ** From the config file to the launch *)

Lemma apply_hook_starts_with_prior os (post fail : yaml)
    (do_apply : Profile.t → M unit) p cmd :
  strip cmd ≠ "" →
  ∃ rest,
    trace (Hook.apply_hook os (Hook.Make (YStr cmd) post fail) do_apply p)
    = EvLog DEBUG "Calling '%s'" [ArgStr cmd]
      :: EvPopen cmd (described_env os p None) :: rest.
Proof.
  intros Hne. unfold Hook.apply_hook.
  match goal with
  | |- ∃ rest, trace (try_except (?first ≫= ?next) ?c ?h) = _ =>
      destruct (trace_try_except_prefix (first ≫= next) c h) as [r1 H1];
      destruct (trace_bind_prefix first next) as [r2 H2]
  end.
  rewrite H1, H2. simpl Hook.prior_switch. rewrite hook_launch by done.
  simpl. by eexists.
Qed.

(** X19: a prior-switch command set in the [hooks] section of the
    configuration, and not blank, is the first thing the [apply] of the
    facade built by [get_randrctl] launches, with [randr_profile] bound to
    the name of the profile, whatever the other two entries are. *)
Theorem configured_prior_hook_is_launched (rt : Runtime.t) (fs : FS.t)
    (self : CtlFactory.t) t config m cmd (p : Profile.t) :
  CtlFactory.read_config fs self = (t, inr config) →
  config !! "hooks" = Some (YMap m) →
  m !! "prior_switch" = Some (YStr cmd) →
  strip cmd ≠ "" →
  ∃ rc rest,
    CtlFactory.get_randrctl rt fs self = (t, inr rc)
    ∧ trace (Xrandr.apply (RandrCtl.xrandr rc) p)
      = EvLog DEBUG "Calling '%s'" [ArgStr cmd]
        :: EvPopen cmd (described_env (Runtime.os rt) p None) :: rest.
Proof.
  intros Hread Hhooks Hprior Hne.
  assert (hooks_entry config "prior_switch" = YStr cmd) as Hentry
    by (unfold hooks_entry; by rewrite Hhooks, Hprior).
  unfold CtlFactory.get_randrctl.
  rewrite (bind_value _ _ t config Hread).
  rewrite !config_safe_hooks by eauto. rewrite !bind_ret_l.
  rewrite Hentry. cbn [CtlFactory.is_not_None orb].
  destruct (apply_hook_starts_with_prior (Runtime.os rt)
              (hooks_entry config "post_switch")
              (hooks_entry config "post_fail")
              (Xrandr.apply (Runtime.Xrandr_new rt)) p cmd Hne)
    as [rest Hrest].
  eexists _, rest. split.
  - unfold ret. cbn [trace outcome fst snd]. by rewrite app_nil_r.
  - exact Hrest.
Qed.

Lemma configured_prior_hook_is_launched_witness :
  ∃ rc rest,
    CtlFactory.get_randrctl sample_runtime one_malformed two_homes
    = ([EvLog DEBUG "read configuration from %s"
          [ArgStr "/etc/randrctl/config.yaml"];
        EvLog ERROR "error reading configuration file %s"
          [ArgStr "/home/u/.config/randrctl/config.yaml"]],
       inr rc)
    ∧ trace (Xrandr.apply (RandrCtl.xrandr rc) laptop)
      = EvLog DEBUG "Calling '%s'" [ArgStr "echo start"]
        :: EvPopen "echo start" (described_env sample_os laptop None) :: rest.
Proof.
  eapply (configured_prior_hook_is_launched sample_runtime one_malformed
            two_homes _ _ _ "echo start" laptop).
  - reflexivity.
  - reflexivity.
  - reflexivity.
  - vm_compute. discriminate.
Defined.

Lemma hook_skipped_iff_whitespace_witness :
  Hook.hook sample_os (Hook.Make YNull YNull YNull) (YStr "   ") docked None
  = ([], inr tt).
Proof.
  apply (hook_skipped_iff_whitespace sample_os (Hook.Make YNull YNull YNull)
           docked "   " None).
  repeat constructor.
Defined.
